(** * homework_bot: a shallow embedding of [homework.py]

    The bot polls the homework-review API, renders the status of the most
    recent homework and relays it to one Telegram chat.  The embedding
    follows the Python source function by function.  Everything the
    program reads from the outside (clock, HTTP exchange, Telegram
    delivery) is an explicit input; everything it does to the outside
    (log records, the GET request, chat messages, sleeping) is an event
    of the trace it returns. *)

From Stdlib Require Import ZArith String Ascii List Lia.
From stdpp Require Import base option list strings gmap pretty.

Set Warnings "-register-all".
Open Scope string_scope.
Open Scope Z_scope.
Open Scope list_scope.

(** ** Python values *)

(** What [response.json()] can return.  A float is kept as the two things
    the program can observe of it: whether it is zero (truthiness) and
    its printed form. *)
Inductive json : Type :=
| JNull
| JBool (b : bool)
| JNum (z : Z)
| JFloat (zero : bool) (text : string)
| JStr (s : string)
| JList (l : list json)
| JDict (d : gmap string json).

(** [bool(v)] *)
Definition truthy (v : json) : bool :=
  match v with
  | JNull => false
  | JBool b => b
  | JNum z => negb (z =? 0)
  | JFloat zero _ => negb zero
  | JStr s => negb (String.eqb s "")
  | JList l => match l with [] => false | _ => true end
  | JDict d => negb (bool_decide (d = ∅))
  end.

(** [a or b] *)
Definition py_or (a b : json) : json := if truthy a then a else b.

(** [type(v).__name__] *)
Definition type_name (v : json) : string :=
  match v with
  | JNull => "NoneType"
  | JBool _ => "bool"
  | JNum _ => "int"
  | JFloat _ _ => "float"
  | JStr _ => "str"
  | JList _ => "list"
  | JDict _ => "dict"
  end.

(** [str(type(v))] *)
Definition type_str (v : json) : string := "<class '" +:+ type_name v +:+ "'>".

(** [needle in hay] on two strings.  The strings are UTF-8 byte
    sequences; UTF-8 is self-synchronising, so containment of bytes and
    containment of code points agree on them. *)
Fixpoint contains (hay needle : string) : bool :=
  String.prefix needle hay ||
  match hay with
  | EmptyString => false
  | String _ hay' => contains hay' needle
  end.

(** The double quote, which the status text puts around the name. *)
Definition dquote : string := String "034"%char EmptyString.

(** [os.getenv] hands back [None] or a string; [bool] of it. *)
Definition env_truthy (v : option string) : bool :=
  match v with
  | Some s => negb (String.eqb s "")
  | None => false
  end.

(** [f'{v}'] of such a value. *)
Definition env_str (v : option string) : string := default "None" v.

(** [all(l)] *)
Definition all (l : list bool) : bool := forallb id l.

(** ** Exceptions *)

Inductive exc_class :=
| TypeError | KeyError | ValueError | AttributeError | JSONDecodeError
| InvalidToken | EmptyResponseFromAPI | WrongResponseCode.

(** A raised exception: its class and [str(error)]. *)
Record exn := Exc { exc_type : exc_class; exc_str : string }.

(** An exception object made by a library ([requests], [telegram]):
    what [str] and [repr] give for it. *)
Record foreign_error := { err_str : string; err_repr : string }.

(** ** Events *)

Inductive level := DEBUG | INFO | ERROR | CRITICAL.

(** The keyword arguments of [requests.get]. *)
Record request := {
  url : string;
  headers : gmap string string;
  params : gmap string json
}.

Inductive event :=
| Log (lvl : level) (msg : string)
| Get (rq : request)
| SendMessage (chat_id : option string) (text : string)
| Sleep (seconds : Z).

(** ** Calls that log and may raise *)

Inductive outcome (A : Type) :=
| Return (a : A)
| Raise (e : exn).
Arguments Return {A} a.
Arguments Raise {A} e.

Definition py (A : Type) : Type := list event * outcome A.

#[global] Instance py_ret : MRet py := λ A a, ([], Return a).

#[global] Instance py_bind : MBind py := λ A B k m,
  match m with
  | (t, Return a) => let '(t', r) := k a in ((t ++ t')%list, r)
  | (t, Raise e) => (t, Raise e)
  end.

Definition raise {A} (c : exc_class) (text : string) : py A :=
  ([], Raise (Exc c text)).

Definition logging (lvl : level) (msg : string) : py unit :=
  ([Log lvl msg], Return tt).

Definition emit (e : event) : py unit := ([e], Return tt).

(** The events of a call, and what it gave. *)
Definition trace_of {A} (m : py A) : list event := fst m.
Definition result_of {A} (m : py A) : outcome A := snd m.

(** ** What the outside world answers *)

(** [response.json()]: the decoded body, or the decoder's exception.
    Newer [requests] raise their own [JSONDecodeError], which is a
    [RequestException]; older ones let the decoder's [ValueError]
    through. *)
Inductive body :=
| Json (j : json)
| NotJson (is_request_exception : bool) (e : foreign_error).

Record response := {
  status_code : Z;
  reason : string;
  text : string;
  json_body : body
}.

(** [requests.get]: a response, or a [RequestException]. *)
Inductive exchange :=
| Answered (r : response)
| RequestException (e : foreign_error).

(** [bot.send_message]: done, or a [telegram.error.TelegramError]. *)
Inductive delivery :=
| Delivered
| TelegramFailure (e : foreign_error).

(** One pass of the loop reads the clock (in [get_api_answer], when the
    cursor is falsy, and again for the default of [response.get]), makes
    one HTTP exchange and at most one call to [send_message]. *)
Record world := {
  clock_fetch : Z;
  network : exchange;
  clock_advance : Z;
  telegram : delivery
}.

(** Start-up: [telegram.Bot(token=...)] builds the client or raises, and
    the start message is delivered or not. *)
Record boot := {
  bot_init : option foreign_error;
  start_delivery : delivery
}.

(** The two variables of [main] that live across iterations. *)
Record loop_state := {
  current_timestamp : json;
  prev_msg : string
}.

Inductive process :=
| Stopped
| Polling (st : loop_state).

(** ** Constants of the module *)

Definition RETRY_PERIOD : Z := 600.
Definition ENDPOINT : string :=
  "https://practicum.yandex.ru/api/user_api/homework_statuses/".
Definition HTTPStatus_OK : Z := 200.

Definition HOMEWORK_VERDICTS : gmap string string :=
  {[ "approved" := "Работа проверена: ревьюеру всё понравилось. Ура!";
     "reviewing" := "Работа взята на проверку ревьюером.";
     "rejected" := "Работа проверена: у ревьюера есть замечания." ]}.

Definition start_message : string := "Бот начал работу".
Definition no_new_statuses : string := "Нет новых статусов".
Definition failure_prefix : string := "Сбой в работе программы: ".

(** ** Duck typing

    The helpers are annotated with [dict], but nothing checks the
    annotation: they receive whatever the API's JSON held. *)

(** [v.get(key, dflt)]: only a mapping has the attribute. *)
Definition py_get (v : json) (key : string) (dflt : json) : py json :=
  match v with
  | JDict d => mret (default dflt (d !! key))
  | _ => raise AttributeError
           ("'" +:+ type_name v +:+ "' object has no attribute 'get'")
  end.

(** [key in v] with a string on the left: key of a mapping, substring of
    a string, element of a list; other values are not containers. *)
Definition py_in (key : string) (v : json) : py bool :=
  match v with
  | JDict d => mret (bool_decide (is_Some (d !! key)))
  | JStr s => mret (contains s key)
  | JList l =>
      mret (existsb (λ x, match x with
                          | JStr s => String.eqb s key
                          | _ => false
                          end) l)
  | _ => raise TypeError
           ("argument of type '" +:+ type_name v +:+ "' is not iterable")
  end.

(** [v in HOMEWORK_VERDICTS] together with [HOMEWORK_VERDICTS[v]]: the
    lookup hashes [v], which lists and mappings do not support; no other
    value equals one of the three string keys. *)
Definition verdict_of (v : json) : py (option string) :=
  match v with
  | JStr s => mret (HOMEWORK_VERDICTS !! s)
  | JList _ | JDict _ =>
      raise TypeError ("unhashable type: '" +:+ type_name v +:+ "'")
  | _ => mret None
  end.

(** ** check_response *)

Definition check_response (response : json) : py (list json) :=
  logging INFO "Проверка ответа API на корректность";;
  match response with
  | JDict d =>
      if negb (bool_decide (is_Some (d !! "homeworks")))
         || negb (bool_decide (is_Some (d !! "current_date")))
      then raise EmptyResponseFromAPI "Нет ключа homeworks в ответе API"
      else
        let homeworks := default JNull (d !! "homeworks") in
        match homeworks with
        | JList l => mret l
        | _ => raise TypeError
                 ("Ожидался список (list) в ключе " +:+ dquote +:+ "homeworks"
                  +:+ dquote +:+ ", получен " +:+ type_str homeworks)
        end
  | _ => raise TypeError
           ("Ожидался ответ API в формате dict, получен "
            +:+ type_str response)
  end.

(** ** Reading a trace *)

(** The texts handed to [bot.send_message], in order. *)
Definition sent (t : list event) : list string :=
  omap (λ e, match e with SendMessage _ text => Some text | _ => None end) t.

(** The requests made, in order. *)
Definition requests (t : list event) : list request :=
  omap (λ e, match e with Get rq => Some rq | _ => None end) t.

(** The messages logged at a level, in order. *)
Definition logged (lvl : level) (t : list event) : list string :=
  omap (λ e, match e with
             | Log l msg =>
                 match lvl, l with
                 | DEBUG, DEBUG | INFO, INFO | ERROR, ERROR
                 | CRITICAL, CRITICAL => Some msg
                 | _, _ => None
                 end
             | _ => None
             end) t.

(** The body of a successful fetch: status 200 and a decodable body. *)
Definition fetched (w : world) : option json :=
  match network w with
  | Answered r =>
      if status_code r =? HTTPStatus_OK
      then match json_body r with Json j => Some j | NotJson _ _ => None end
      else None
  | RequestException _ => None
  end.

(** Line 141: the test that lets a message through to the chat. *)
Definition is_new (message prev : string) : bool :=
  negb (String.eqb message prev) && negb (contains prev message).

(** The value a pass assigns to the cursor, when it gets that far: the
    response's [current_date], or the clock when the key is absent. *)
Definition reported_date (w : world) : option json :=
  match fetched w with
  | Some (JDict d) => Some (default (JNum (clock_advance w)) (d !! "current_date"))
  | _ => None
  end.

(** Order on cursors that are integer timestamps. *)
Definition cursor_le (a b : json) : Prop :=
  match a, b with
  | JNum x, JNum y => x ≤ y
  | _, _ => False
  end.

(** Every pass that moves the cursor moves it to an integer no smaller
    than the one it replaces. *)
Fixpoint dates_ascend (c : Z) (ws : list world) : Prop :=
  match ws with
  | [] => True
  | w :: ws =>
      match reported_date w with
      | None => dates_ascend c ws
      | Some (JNum n) => c ≤ n ∧ dates_ascend n ws
      | Some _ => False
      end
  end.

(** Each element is below the next. *)
Fixpoint ascending (c : json) (l : list json) : Prop :=
  match l with
  | [] => True
  | c' :: l => cursor_le c c' ∧ ascending c' l
  end.

(** Values a [dict] lookup can hash. *)
Definition hashable (v : json) : bool :=
  match v with
  | JList _ | JDict _ => false
  | _ => true
  end.

(** The fetch did not end in status 200: another status, or no response
    at all. *)
Definition fetch_failed (w : world) : Prop :=
  match network w with
  | Answered r => status_code r ≠ HTTPStatus_OK
  | RequestException _ => True
  end.

(** An environment variable that is unset or empty. *)
Definition missing (v : option string) : Prop := v = None ∨ v = Some "".

(** The texts [prev_msg] can hold: nothing yet, one of the two kinds of
    status message, or a failure report. *)
Definition relayed (s : string) : Prop :=
  s = ""
  ∨ s = no_new_statuses
  ∨ (∃ rest, s = "Изменился статус проверки работы " +:+ rest)
  ∨ (∃ rest, s = failure_prefix +:+ rest).

(** The lengths of the sleeps, in order. *)
Definition slept (t : list event) : list Z :=
  omap (λ e, match e with Sleep s => Some s | _ => None end) t.

(** The chats written to, in order. *)
Definition chats (t : list event) : list (option string) :=
  omap (λ e, match e with SendMessage c _ => Some c | _ => None end) t.

(** The same pass with another end of the call to [bot.send_message]. *)
Definition with_telegram (d : delivery) (w : world) : world :=
  {| clock_fetch := clock_fetch w; network := network w;
     clock_advance := clock_advance w; telegram := d |}.

(** The texts a pass makes: one of the two kinds of status message, or
    a failure report. *)
Definition produced (s : string) : Prop :=
  s = no_new_statuses
  ∨ (∃ rest, s = "Изменился статус проверки работы " +:+ rest)
  ∨ (∃ rest, s = failure_prefix +:+ rest).


(** ** Sample inputs *)

(** [repr] for the values the examples print: strings without quotes or
    escapes, integers, and mappings of such. *)
Definition sample_scalar_repr (v : json) : string :=
  match v with
  | JNull => "None"
  | JBool true => "True"
  | JBool false => "False"
  | JNum z => pretty z
  | JFloat _ text => text
  | JStr s => "'" +:+ s +:+ "'"
  | JList _ => "[...]"
  | JDict _ => "{...}"
  end.

Definition sample_repr (v : json) : string :=
  match v with
  | JDict d =>
      "{" +:+ String.concat ", "
                ((λ kv, "'" +:+ kv.1 +:+ "': " +:+ sample_scalar_repr kv.2)
                   <$> map_to_list d)
      +:+ "}"
  | _ => sample_scalar_repr v
  end.

(** Only [EmptyResponseFromAPI] derives from [NotForSend]. *)
Definition sample_hierarchy (c : exc_class) : bool :=
  match c with
  | EmptyResponseFromAPI => true
  | _ => false
  end.

Definition homework (name status : json) : json :=
  JDict {[ "homework_name" := name; "status" := status ]}.

Definition api_body (homeworks : json) (date : Z) : json :=
  JDict {[ "homeworks" := homeworks; "current_date" := JNum date ]}.

(** A 200 response; its raw text is not read on that path. *)
Definition ok (j : json) : exchange :=
  Answered {| status_code := 200; reason := "OK"; text := "";
              json_body := Json j |}.

Definition unavailable : exchange :=
  Answered {| status_code := 503; reason := "Service Unavailable";
              text := "try later"; json_body := NotJson false
                {| err_str := "Expecting value: line 1 column 1 (char 0)";
                   err_repr := "JSONDecodeError('Expecting value: line 1 column 1 (char 0)')" |} |}.

Definition unreachable : exchange :=
  RequestException {| err_str := "connection refused";
                      err_repr := "ConnectionError('connection refused')" |}.

Definition at_time (now : Z) (net : exchange) : world :=
  {| clock_fetch := now; network := net; clock_advance := now;
     telegram := Delivered |}.

Definition good_boot : boot :=
  {| bot_init := None; start_delivery := Delivered |}.

Definition sample_status : json := homework (JStr "hw05.zip") (JStr "reviewing").

Definition sample_practicum_token : option string := Some "y0_AgAAAAA".
Definition sample_telegram_token : option string := Some "123456:AAEhBP".
Definition sample_chat_id : option string := Some "42".

Definition reviewing_text : string :=
  "Изменился статус проверки работы " +:+ dquote +:+ "hw05.zip" +:+ dquote
  +:+ ". Работа взята на проверку ревьюером.".

(** The API reports the sample homework, dated 990, at clock 1000. *)
Definition reviewing_poll : world :=
  at_time 1000 (ok (api_body (JList [sample_status]) 990)).

(** The API reports no homework. *)
Definition idle_poll : world := at_time 1000 (ok (api_body (JList []) 990)).

(** The API reports a date, 500, that lies behind. *)
Definition stale_poll : world := at_time 1700 (ok (api_body (JList []) 500)).

(** The API is down; later it answers again, dated 2190. *)
Definition outage_poll : world := at_time 1600 unavailable.
Definition fresh_poll : world := at_time 2200 (ok (api_body (JList []) 2190)).

(** The loop after it relayed the sample status. *)
Definition seen_state : loop_state :=
  {| current_timestamp := JNum 990; prev_msg := reviewing_text |}.

Definition late_state : loop_state :=
  {| current_timestamp := JNum 1000; prev_msg := "" |}.

(** Malformed bodies: no [current_date]; no [homeworks]. *)
Definition dateless_body : gmap string json := {[ "homeworks" := JNum 5 ]}.
Definition homeworkless_body : gmap string json :=
  {[ "current_date" := JNum 2000 ]}.

(** A token that is set but is not of the form the client accepts, and
    the start-up in which the client refuses it. *)
Definition malformed_telegram_token : option string := Some "no-colon-here".

Definition bad_token_boot : boot :=
  {| bot_init := Some {| err_str := "Invalid token";
                         err_repr := "InvalidToken('Invalid token')" |};
     start_delivery := Delivered |}.

(** What the fetch helper raises on [unavailable]. *)
Definition outage_error : exn :=
  Exc WrongResponseCode
    ("Ответ API не возвращает 200. Код ответа: 503. "
     +:+ "Причина: Service Unavailable. Текст: try later.").

(** The body of [reviewing_poll], and one with an older homework after
    the same first entry. *)
Definition reviewing_body : gmap string json :=
  {[ "homeworks" := JList [sample_status]; "current_date" := JNum 990 ]}.

Definition two_homeworks_body : gmap string json :=
  {[ "homeworks" := JList [sample_status;
                           homework (JStr "hw04.zip") (JStr "approved")];
     "current_date" := JNum 990 ]}.

Definition two_homeworks_poll : world :=
  at_time 1000 (ok (JDict two_homeworks_body)).


Section Bot.

(** The three environment variables, read when the module is loaded. *)
Variables PRACTICUM_TOKEN TELEGRAM_TOKEN TELEGRAM_CHAT_ID : option string.

(** The interpreter's [repr] of a value (its quoting and escaping of
    strings, its layout of lists and mappings). *)
Variable py_repr : json → string.

(** [exceptions.py] is not among the sources.  Its classes are taken as
    plain exceptions ([str] of one is [str] of its arguments); which of
    [EmptyResponseFromAPI] and [WrongResponseCode] derive from
    [NotForSend] or its [TelegramError] is left open. *)
Variable not_for_send : exc_class → bool.

Definition HEADERS : gmap string string :=
  {[ "Authorization" := "OAuth " +:+ env_str PRACTICUM_TOKEN ]}.

(** [str(v)] *)
Definition py_str (v : json) : string :=
  match v with
  | JNull => "None"
  | JBool true => "True"
  | JBool false => "False"
  | JNum z => pretty z
  | JFloat _ text => text
  | JStr s => s
  | JList _ | JDict _ => py_repr v
  end.

(** ** send_message

    The [bot] argument is the handle whose one use is the call recorded
    as [SendMessage]; [d] is how that call ends. *)
Definition send_message (message : string) (d : delivery) : list event :=
  [Log INFO "Начало отправки статуса в telegram";
   SendMessage TELEGRAM_CHAT_ID message]
  ++ match d with
     | Delivered =>
         [Log DEBUG "Сообщение успешно отправлено в telegram";
          Log INFO "Статус отправлен в telegram"]
     | TelegramFailure e =>
         [Log ERROR ("Ошибка отправки статуса в telegram: " +:+ err_str e)]
     end.

(** ** get_api_answer *)

(** The text [{url}, {headers}, {params}] that both request messages
    format from the keyword arguments. *)
Definition request_text (rq : request) : string :=
  url rq +:+ ", " +:+ py_repr (JDict (JStr <$> headers rq))
  +:+ ", " +:+ py_repr (JDict (params rq)).

Definition params_request (current_timestamp : json) (now : Z) : request :=
  let timestamp := py_or current_timestamp (JNum now) in
  {| url := ENDPOINT;
     headers := HEADERS;
     params := {[ "from_date" := timestamp ]} |}.

(** [str] of [WrongResponseCode(message, request_error)]: the
    two-argument tuple. *)
Definition request_failure (rq : request) (e : foreign_error) : string :=
  "(" +:+ py_repr (JStr ("API не возвращает 200. Запрос: "
                         +:+ request_text rq +:+ "."))
  +:+ ", " +:+ err_repr e +:+ ")".

Definition wrong_status (r : response) : string :=
  "Ответ API не возвращает 200. "
  +:+ "Код ответа: " +:+ pretty (status_code r) +:+ ". "
  +:+ "Причина: " +:+ reason r +:+ ". "
  +:+ "Текст: " +:+ text r +:+ ".".

Definition get_api_answer (current_timestamp : json) (now : Z)
    (net : exchange) : py json :=
  let rq := params_request current_timestamp now in
  logging INFO ("Начало запроса к API. Запрос: " +:+ request_text rq +:+ ".");;
  emit (Get rq);;
  match net with
  | Answered r =>
      if negb (status_code r =? HTTPStatus_OK)
      then raise WrongResponseCode (wrong_status r)
      else match json_body r with
           | Json j => mret j
           | NotJson true e => raise WrongResponseCode (request_failure rq e)
           | NotJson false e => raise JSONDecodeError (err_str e)
           end
  | RequestException e => raise WrongResponseCode (request_failure rq e)
  end.

(** ** parse_status *)

Definition parse_status (homework : json) : py string :=
  logging INFO "Проводим проверки и извлекаем статус работы";;
  named ← py_in "homework_name" homework;
  if negb named
  then raise KeyError (py_repr (JStr "Нет ключа homework_name в ответе API"))
  else
    homework_name ← py_get homework "homework_name" JNull;
    homework_status ← py_get homework "status" JNull;
    verdict ← verdict_of homework_status;
    match verdict with
    | None => raise ValueError
                ("Неизвестный статус работы - " +:+ py_str homework_status)
    | Some verdict =>
        mret ("Изменился статус проверки работы " +:+ dquote
              +:+ py_str homework_name +:+ dquote +:+ ". " +:+ verdict)
    end.

(** ** check_tokens *)

Definition check_tokens : py bool :=
  logging INFO "Проверка наличия всех токенов";;
  if negb (all [env_truthy PRACTICUM_TOKEN; env_truthy TELEGRAM_TOKEN;
                env_truthy TELEGRAM_CHAT_ID])
  then raise ValueError "Отсутствует один из токенов"
  else mret true.

(** ** main *)

(** Lines 136-139: the message of a pass. *)
Definition status_message (homeworks : list json) : py string :=
  match homeworks with
  | [] => mret no_new_statuses
  | homework :: _ => parse_status homework
  end.

(** Lines 141-145: send a message that is new, log one that is not. *)
Definition notify (message : string) (d : delivery) (st : loop_state)
    : list event * loop_state :=
  if negb (String.eqb message (prev_msg st))
     && negb (contains (prev_msg st) message)
  then (send_message message d,
        {| current_timestamp := current_timestamp st; prev_msg := message |})
  else ([Log INFO message], st).

(** Lines 130-139: fetch, move the cursor, validate, render.  An
    exception leaves with the variables as they were assigned up to the
    raise, so the state is returned next to the outcome. *)
Definition poll (w : world) (st : loop_state)
    : list event * loop_state * outcome string :=
  match get_api_answer (current_timestamp st) (clock_fetch w) (network w) with
  | (t1, Raise e) => (t1, st, Raise e)
  | (t1, Return response) =>
      match py_get response "current_date" (JNum (clock_advance w)) with
      | (t2, Raise e) => (t1 ++ t2, st, Raise e)
      | (t2, Return date) =>
          let st := {| current_timestamp := date; prev_msg := prev_msg st |} in
          let '(t3, r) := homeworks ← check_response response;
                          status_message homeworks in
          (t1 ++ t2 ++ t3, st, r)
      end
  end%list.

(** Lines 130-145, the body of [try]. *)
Definition try_block (w : world) (st : loop_state)
    : list event * loop_state * option exn :=
  match poll w st with
  | (t, st, Raise e) => (t, st, Some e)
  | (t, st, Return message) =>
      let '(t', st) := notify message (telegram w) st in
      ((t ++ t')%list, st, None)
  end.

(** Whether the first handler, [except (NotForSend, TelegramError)],
    takes the exception.  Built-in and library classes never do. *)
Definition caught_quietly (e : exn) : bool :=
  match exc_type e with
  | EmptyResponseFromAPI | WrongResponseCode => not_for_send (exc_type e)
  | _ => false
  end.

(** Lines 147-162, the two handlers. *)
Definition except (error : exn) (d : delivery) (st : loop_state)
    : list event * loop_state :=
  let message := failure_prefix +:+ exc_str error in
  if caught_quietly error
  then ([Log ERROR message], st)
  else
    (Log ERROR message ::
     (if negb (contains (prev_msg st) message)
      then send_message message d else []),
     {| current_timestamp := current_timestamp st; prev_msg := message |}).

(** One pass of [while True], with the [finally] clause. *)
Definition iteration (w : world) (st : loop_state)
    : list event * loop_state :=
  match try_block w st with
  | (t, st, None) => (t ++ [Sleep RETRY_PERIOD], st)
  | (t, st, Some error) =>
      let '(t', st) := except error (telegram w) st in
      (t ++ t' ++ [Sleep RETRY_PERIOD], st)
  end%list.

(** The loop over the passes the outside world has answered so far. *)
Fixpoint while_True (ws : list world) (st : loop_state)
    : list event * loop_state :=
  match ws with
  | [] => ([], st)
  | w :: ws =>
      let '(t, st) := iteration w st in
      let '(t', st) := while_True ws st in
      ((t ++ t')%list, st)
  end.

(** Lines 120-122: what precedes the start message. *)
Definition startup (b : boot) : py unit :=
  ok ← check_tokens;
  if negb ok
  then raise ValueError "Отсутствует токен. Бот остановлен!"
  else match bot_init b with
       | Some e => raise InvalidToken (err_str e)
       | None => mret tt
       end.

Definition initial_state : loop_state :=
  {| current_timestamp := JNum 0; prev_msg := "" |}.

(** [main], run for as many passes as [ws] is long.  The loop has no
    exit: the process is [Stopped] only from the outer handler. *)
Definition main (b : boot) (ws : list world) : list event * process :=
  match startup b with
  | (t, Raise main_error) =>
      ((t ++ [Log CRITICAL ("Произошла критическая ошибка: "
                           +:+ exc_str main_error)])%list,
       Stopped)
  | (t, Return _) =>
      let '(t', st) := while_True ws initial_state in
      ((t ++ send_message start_message (start_delivery b)
          ++ [Log INFO start_message] ++ t')%list,
       Polling st)
  end.

(** The cursor after each pass, in order. *)
Fixpoint cursors (ws : list world) (st : loop_state) : list json :=
  match ws with
  | [] => []
  | w :: ws =>
      let st := (iteration w st).2 in
      current_timestamp st :: cursors ws st
  end.

(** Lines 141-162 as one step: what follows the first part of a pass,
    given the state and the outcome it left. *)
Definition after_poll (st : loop_state) (r : outcome string) (d : delivery)
    : list event * loop_state :=
  match r with
  | Return message => notify message d st
  | Raise error => except error d st
  end.


(** * Properties *)

(** ** The fetch helper *)

Lemma get_api_answer_trace (cursor : json) (now : Z) (net : exchange) :
  trace_of (get_api_answer cursor now net)
  = [Log INFO ("Начало запроса к API. Запрос: "
               +:+ request_text (params_request cursor now) +:+ ".");
     Get (params_request cursor now)].
Proof.
  unfold get_api_answer.
  destruct net as [r|e]; cbn.
  - destruct (status_code r =? HTTPStatus_OK); cbn; [|reflexivity].
    destruct (json_body r) as [j|[|] e]; reflexivity.
  - reflexivity.
Qed.

Lemma get_api_answer_ok (cursor : json) (now : Z) (w : world) (j : json) :
  fetched w = Some j →
  result_of (get_api_answer cursor now (network w)) = Return j.
Proof.
  unfold fetched, get_api_answer.
  destruct (network w) as [r|e]; [|discriminate]; cbn.
  destruct (status_code r =? HTTPStatus_OK); [|discriminate]; cbn.
  destruct (json_body r) as [j'|[|] e]; [|discriminate..].
  intros [= ->]. reflexivity.
Qed.

(** C5, as amended.  Whatever the cursor and however the exchange
    ends, the helper makes exactly one request; its only header is
    [Authorization], holding [OAuth] and the credential; its only query
    parameter is [from_date].  A truthy cursor (any integer but 0) is
    sent as it is; a falsy one, such as the loop's initial 0, is
    replaced by the clock. *)
Theorem get_api_answer_request (cursor : json) (now : Z) (net : exchange) :
  ∃ rq,
    requests (trace_of (get_api_answer cursor now net)) = [rq]
    ∧ url rq = ENDPOINT
    ∧ map_to_list (headers rq)
      = [("Authorization", "OAuth " +:+ env_str PRACTICUM_TOKEN)]
    ∧ map_to_list (params rq)
      = [("from_date", if truthy cursor then cursor else JNum now)]
    ∧ (∀ n, cursor = JNum n → n ≠ 0 → params rq !! "from_date" = Some (JNum n))
    ∧ (cursor = JNum 0 → params rq !! "from_date" = Some (JNum now)).
Proof.
  exists (params_request cursor now).
  rewrite get_api_answer_trace.
  split; [reflexivity|]. split; [reflexivity|].
  split; [|split; [|split]].
  - unfold params_request, HEADERS; cbn. apply map_to_list_singleton.
  - unfold params_request, py_or; cbn. apply map_to_list_singleton.
  - intros n -> Hn. unfold params_request, py_or; cbn.
    destruct (Z.eqb_spec n 0) as [->|_]; [done|]. cbn.
    apply lookup_singleton_eq.
  - intros ->. unfold params_request, py_or; cbn.
    apply lookup_singleton_eq.
Qed.

(** ** The response validator *)

Lemma check_response_missing (d : gmap string json) :
  d !! "homeworks" = None ∨ d !! "current_date" = None →
  result_of (check_response (JDict d))
  = Raise (Exc EmptyResponseFromAPI "Нет ключа homeworks в ответе API").
Proof.
  intros [H|H]; unfold check_response; cbn; rewrite H; cbn.
  - reflexivity.
  - destruct (bool_decide _); reflexivity.
Qed.

(** C7, as amended.  A mapping missing [homeworks] or [current_date]
    raises the empty-response error and returns nothing; a mapping that
    has both keys but whose [homeworks] is not a list raises a type
    error, and so does an input that is not a mapping; a mapping with
    both keys and a list under [homeworks] gives that list back
    unchanged. *)
Theorem check_response_cases (response : json) :
  (∀ d, response = JDict d →
        d !! "homeworks" = None ∨ d !! "current_date" = None →
        result_of (check_response response)
        = Raise (Exc EmptyResponseFromAPI "Нет ключа homeworks в ответе API"))
  ∧ (∀ d v, response = JDict d →
        d !! "homeworks" = Some v → is_Some (d !! "current_date") →
        (∀ l, v ≠ JList l) →
        ∃ text, result_of (check_response response)
                = Raise (Exc TypeError text))
  ∧ ((∀ d, response ≠ JDict d) →
        ∃ text, result_of (check_response response)
                = Raise (Exc TypeError text))
  ∧ (∀ d l, response = JDict d →
        d !! "homeworks" = Some (JList l) → is_Some (d !! "current_date") →
        result_of (check_response response) = Return l).
Proof.
  split; [|split; [|split]].
  - intros d ->. apply check_response_missing.
  - intros d v -> Hh [c Hc] Hv. unfold check_response; cbn.
    rewrite Hh, Hc; cbn.
    cbn.
    destruct v; eauto. exfalso. by eapply Hv.
  - intros Hd. unfold check_response; cbn.
    destruct response; eauto. exfalso. by eapply Hd.
  - intros d l -> Hh [c Hc]. unfold check_response; cbn.
    rewrite Hh, Hc; cbn.
    cbn. reflexivity.
Qed.

(** ** The status-text formatter *)

Lemma verdict_unknown (s : string) :
  s ≠ "approved" → s ≠ "reviewing" → s ≠ "rejected" →
  HOMEWORK_VERDICTS !! s = None.
Proof.
  intros H1 H2 H3. unfold HOMEWORK_VERDICTS.
  rewrite !lookup_insert_ne by done. by apply lookup_singleton_ne.
Qed.

Lemma parse_status_trace (homework : json) :
  trace_of (parse_status homework)
  = [Log INFO "Проводим проверки и извлекаем статус работы"].
Proof.
  unfold parse_status.
  destruct homework as [| | | | s | l | d]; cbn; try reflexivity.
  - destruct (contains s "homework_name"); reflexivity.
  - destruct (existsb _ l); reflexivity.
  - destruct (d !! "homework_name"); cbn; [|reflexivity].
    destruct (default JNull (d !! "status")) as [| | | | s | |]; cbn;
      try reflexivity.
    destruct (HOMEWORK_VERDICTS !! s); reflexivity.
Qed.

(** C8, as amended.  A mapping without [homework_name] raises a lookup
    error.  A mapping with [homework_name] whose [status] is absent, or
    a hashable value other than the three verdict keys, raises a value
    error.  For each of the three keys the result is the fixed sentence
    around the name, followed by the phrase of that verdict. *)
Theorem parse_status_cases (d : gmap string json) :
  (d !! "homework_name" = None →
     ∃ text, result_of (parse_status (JDict d)) = Raise (Exc KeyError text))
  ∧ (∀ status, is_Some (d !! "homework_name") →
       default JNull (d !! "status") = status →
       hashable status = true →
       status ≠ JStr "approved" → status ≠ JStr "reviewing" →
       status ≠ JStr "rejected" →
       result_of (parse_status (JDict d))
       = Raise (Exc ValueError
                  ("Неизвестный статус работы - " +:+ py_str status)))
  ∧ (∀ name, d !! "homework_name" = Some name →
       (d !! "status" = Some (JStr "approved") →
          result_of (parse_status (JDict d))
          = Return ("Изменился статус проверки работы " +:+ dquote
                    +:+ py_str name +:+ dquote
                    +:+ ". Работа проверена: ревьюеру всё понравилось. Ура!"))
       ∧ (d !! "status" = Some (JStr "reviewing") →
          result_of (parse_status (JDict d))
          = Return ("Изменился статус проверки работы " +:+ dquote
                    +:+ py_str name +:+ dquote
                    +:+ ". Работа взята на проверку ревьюером."))
       ∧ (d !! "status" = Some (JStr "rejected") →
          result_of (parse_status (JDict d))
          = Return ("Изменился статус проверки работы " +:+ dquote
                    +:+ py_str name +:+ dquote
                    +:+ ". Работа проверена: у ревьюера есть замечания."))).
Proof.
  split; [|split].
  - intros H. unfold parse_status; cbn. rewrite H; cbn. eauto.
  - intros status [name Hn] Hs Hh H1 H2 H3.
    unfold parse_status; cbn. rewrite Hn, Hs; cbn.
    destruct status as [| | | | s | |]; try discriminate; cbn;
      try reflexivity.
    rewrite verdict_unknown by congruence. reflexivity.
  - intros name Hn.
    split; [|split]; intros Hs; unfold parse_status; cbn;
      rewrite Hn, Hs; reflexivity.
Qed.

(** ** One pass of the loop *)

Lemma check_response_trace (response : json) :
  trace_of (check_response response)
  = [Log INFO "Проверка ответа API на корректность"].
Proof.
  unfold check_response. destruct response as [| | | | | |d]; try reflexivity.
  cbn. destruct (_ || _); [reflexivity|].
  destruct (default JNull (d !! "homeworks")); reflexivity.
Qed.

Lemma check_response_return (response : json) (l : list json) :
  result_of (check_response response) = Return l →
  ∃ d, response = JDict d ∧ d !! "homeworks" = Some (JList l)
       ∧ is_Some (d !! "current_date").
Proof.
  unfold check_response.
  destruct response as [| | | | | |d]; try discriminate. cbn.
  destruct (d !! "homeworks") as [v|] eqn:Hh; [|discriminate].
  destruct (d !! "current_date") as [c|] eqn:Hc; [|discriminate]. cbn.
  destruct v; try discriminate. cbn. intros [= ->]. eauto.
Qed.

Lemma get_api_answer_raises (cursor : json) (now : Z) (w : world) :
  fetched w = None →
  ∃ e, result_of (get_api_answer cursor now (network w)) = Raise e.
Proof.
  unfold fetched, get_api_answer.
  destruct (network w) as [r|e]; cbn; [|eauto].
  destruct (status_code r =? HTTPStatus_OK); cbn; [|eauto].
  destruct (json_body r) as [j|[|] e]; [discriminate|eauto..].
Qed.

Lemma get_api_answer_failed (cursor : json) (now : Z) (w : world) :
  fetch_failed w →
  ∃ text,
    result_of (get_api_answer cursor now (network w))
    = Raise (Exc WrongResponseCode text)
    ∧ ∀ r, network w = Answered r → text = wrong_status r.
Proof.
  unfold fetch_failed, get_api_answer.
  destruct (network w) as [r|e]; cbn.
  - intros H. destruct (Z.eqb_spec (status_code r) HTTPStatus_OK); [done|].
    cbn. eexists. split; [reflexivity|]. by intros ? [= ->].
  - intros _. eexists. split; [reflexivity|]. discriminate.
Qed.

(** A fetch that raises ends the block before any assignment. *)
Lemma poll_fetch_raise (w : world) (st : loop_state) (e : exn) :
  result_of (get_api_answer (current_timestamp st) (clock_fetch w) (network w))
  = Raise e →
  poll w st
  = (trace_of (get_api_answer (current_timestamp st) (clock_fetch w)
                 (network w)), st, Raise e).
Proof.
  unfold poll, result_of, trace_of.
  destruct (get_api_answer _ _ _) as [t r]; cbn. by intros ->.
Qed.

(** A fetch that returns: the cursor is assigned, unless the body has
    no [get]. *)
Lemma poll_fetch_return (w : world) (st : loop_state) (response : json) :
  fetched w = Some response →
  poll w st
  = match response with
    | JDict d =>
        let date := default (JNum (clock_advance w)) (d !! "current_date") in
        (trace_of (get_api_answer (current_timestamp st) (clock_fetch w)
                     (network w))
         ++ trace_of (homeworks ← check_response response;
                      status_message homeworks),
         {| current_timestamp := date; prev_msg := prev_msg st |},
         result_of (homeworks ← check_response response;
                    status_message homeworks))
    | _ =>
        (trace_of (get_api_answer (current_timestamp st) (clock_fetch w)
                     (network w)) ++ [],
         st,
         Raise (Exc AttributeError
                  ("'" +:+ type_name response
                   +:+ "' object has no attribute 'get'")))
    end.
Proof.
  intros Hf. unfold poll.
  pose proof (get_api_answer_ok (current_timestamp st) (clock_fetch w) w
                response Hf) as Hr.
  unfold result_of, trace_of in *.
  destruct (get_api_answer _ _ _) as [t r]; cbn in *. subst r.
  destruct response; cbn; try reflexivity.
  destruct (_ ≫= _) as [t3 r3]. reflexivity.
Qed.

Lemma bind_return {A B} (m : py A) (k : A → py B) (a : A) :
  result_of m = Return a →
  m ≫= k = (trace_of m ++ trace_of (k a), result_of (k a)).
Proof.
  destruct m as [t r]; cbn. intros ->.
  unfold mbind, py_bind. by destruct (k a).
Qed.

Lemma bind_raise {A B} (m : py A) (k : A → py B) (e : exn) :
  result_of m = Raise e → m ≫= k = (trace_of m, Raise e).
Proof. destruct m as [t r]; cbn. by intros ->. Qed.

Lemma status_message_trace_sent (response : json) :
  sent (trace_of (homeworks ← check_response response;
                  status_message homeworks)) = [].
Proof.
  destruct (result_of (check_response response)) as [l|e] eqn:Hr.
  - rewrite (bind_return _ _ l Hr), check_response_trace.
    destruct l as [|homework l]; [reflexivity|].
    change (status_message (homework :: l)) with (parse_status homework).
    by rewrite parse_status_trace.
  - by rewrite (bind_raise _ _ e Hr), check_response_trace.
Qed.

Lemma sent_app (t t' : list event) : sent (t ++ t') = sent t ++ sent t'.
Proof. apply omap_app. Qed.

(** The first part of a pass sends nothing and keeps [prev_msg]. *)
Lemma poll_quiet (w : world) (st : loop_state) :
  sent (poll w st).1.1 = [] ∧ prev_msg (poll w st).1.2 = prev_msg st.
Proof.
  destruct (fetched w) as [response|] eqn:Hf.
  - rewrite (poll_fetch_return w st response Hf).
    destruct response; cbn [fst snd prev_msg];
      rewrite sent_app, get_api_answer_trace; try done.
    split; [|done]. by rewrite status_message_trace_sent.
  - destruct (get_api_answer_raises (current_timestamp st) (clock_fetch w) w Hf)
      as [e He].
    rewrite (poll_fetch_raise w st e He); cbn [fst snd].
    by rewrite get_api_answer_trace.
Qed.

(** The cursor is assigned in one place only. *)
Lemma poll_cursor (w : world) (st : loop_state) :
  current_timestamp (poll w st).1.2
  = default (current_timestamp st) (reported_date w).
Proof.
  unfold reported_date.
  destruct (fetched w) as [response|] eqn:Hf.
  - rewrite (poll_fetch_return w st response Hf).
    destruct response; reflexivity.
  - destruct (get_api_answer_raises (current_timestamp st) (clock_fetch w) w Hf)
      as [e He].
    by rewrite (poll_fetch_raise w st e He).
Qed.

Lemma notify_cursor (message : string) (d : delivery) (st : loop_state) :
  current_timestamp (notify message d st).2 = current_timestamp st.
Proof. unfold notify. by destruct (_ && _). Qed.

Lemma except_cursor (e : exn) (d : delivery) (st : loop_state) :
  current_timestamp (except e d st).2 = current_timestamp st.
Proof. unfold except. by destruct (caught_quietly e). Qed.

Lemma except_logs (e : exn) (d : delivery) (st : loop_state) :
  Log ERROR (failure_prefix +:+ exc_str e) ∈ (except e d st).1.
Proof.
  unfold except. destruct (caught_quietly e); cbn; apply list_elem_of_here.
Qed.

Lemma iteration_return (w : world) (st st' : loop_state) (t : list event)
    (message : string) :
  poll w st = (t, st', Return message) →
  iteration w st
  = (t ++ (notify message (telegram w) st').1 ++ [Sleep RETRY_PERIOD],
     (notify message (telegram w) st').2).
Proof.
  intros H. unfold iteration, try_block. rewrite H.
  destruct (notify _ _ _) as [t' st'']; cbn. by rewrite <- app_assoc.
Qed.

Lemma iteration_raise (w : world) (st st' : loop_state) (t : list event)
    (e : exn) :
  poll w st = (t, st', Raise e) →
  iteration w st
  = (t ++ (except e (telegram w) st').1 ++ [Sleep RETRY_PERIOD],
     (except e (telegram w) st').2).
Proof.
  intros H. unfold iteration, try_block. rewrite H.
  by destruct (except _ _ _) as [t' st''].
Qed.

Lemma iteration_cursor (w : world) (st : loop_state) :
  current_timestamp (iteration w st).2
  = default (current_timestamp st) (reported_date w).
Proof.
  rewrite <- poll_cursor.
  destruct (poll w st) as [[t st'] [message|e]] eqn:Hp.
  - rewrite (iteration_return w st st' t message Hp). apply notify_cursor.
  - rewrite (iteration_raise w st st' t e Hp). apply except_cursor.
Qed.

(** Every pass ends with the sleep. *)
Lemma iteration_sleeps (w : world) (st : loop_state) :
  last (iteration w st).1 = Some (Sleep RETRY_PERIOD).
Proof.
  destruct (poll w st) as [[t st'] [message|e]] eqn:Hp.
  - rewrite (iteration_return w st st' t message Hp); cbn.
    by rewrite app_assoc, last_snoc.
  - rewrite (iteration_raise w st st' t e Hp); cbn.
    by rewrite app_assoc, last_snoc.
Qed.

(** Every pass begins with the fetch at the current cursor. *)
Lemma iteration_begins (w : world) (st : loop_state) :
  ∃ t, (iteration w st).1
       = trace_of (get_api_answer (current_timestamp st) (clock_fetch w)
                     (network w)) ++ t.
Proof.
  assert (∃ t, (poll w st).1.1
               = trace_of (get_api_answer (current_timestamp st)
                             (clock_fetch w) (network w)) ++ t) as [t0 H0].
  { destruct (fetched w) as [response|] eqn:Hf.
    - rewrite (poll_fetch_return w st response Hf).
      destruct response; cbn; eauto.
    - destruct (get_api_answer_raises (current_timestamp st) (clock_fetch w)
                  w Hf) as [e He].
      rewrite (poll_fetch_raise w st e He); cbn.
      exists []. by rewrite app_nil_r. }
  destruct (poll w st) as [[t st'] [message|e]] eqn:Hp; cbn in H0; subst t.
  - rewrite (iteration_return w st st' _ message Hp); cbn.
    rewrite <- app_assoc. eauto.
  - rewrite (iteration_raise w st st' _ e Hp); cbn.
    rewrite <- app_assoc. eauto.
Qed.

Lemma while_True_cons (w : world) (ws : list world) (st : loop_state) :
  while_True (w :: ws) st
  = ((iteration w st).1 ++ (while_True ws (iteration w st).2).1,
     (while_True ws (iteration w st).2).2).
Proof.
  cbn [while_True]. destruct (iteration w st) as [t st']. cbn [fst snd].
  by destruct (while_True ws st') as [t' st''].
Qed.

(** ** Malformed response *)

(** C3, as amended.  The cursor is assigned before the response is
    validated.  A decoded mapping that lacks [homeworks] or
    [current_date] is refused by the validator with the empty-response
    error, logged as an error, and the cursor is by then the
    response's [current_date], or the clock when that key is the
    missing one.  A decoded body that is not a mapping fails at the
    assignment itself, and only then the cursor keeps its value. *)
Theorem malformed_response_cursor (w : world) (st : loop_state)
    (response : json) :
  fetched w = Some response →
  (∀ d, response = JDict d →
        d !! "homeworks" = None ∨ d !! "current_date" = None →
        (poll w st).2
        = Raise (Exc EmptyResponseFromAPI "Нет ключа homeworks в ответе API")
        ∧ current_timestamp (iteration w st).2
          = default (JNum (clock_advance w)) (d !! "current_date")
        ∧ Log ERROR (failure_prefix +:+ "Нет ключа homeworks в ответе API")
          ∈ (iteration w st).1)
  ∧ ((∀ d, response ≠ JDict d) →
        ∃ msg, (poll w st).2 = Raise (Exc AttributeError msg)
               ∧ current_timestamp (iteration w st).2 = current_timestamp st
               ∧ Log ERROR (failure_prefix +:+ msg) ∈ (iteration w st).1).
Proof.
  intros Hf. split.
  - intros d -> Hd.
    pose proof (check_response_missing d Hd) as Hr.
    pose proof (poll_fetch_return w st _ Hf) as Hp. cbv zeta in Hp.
    rewrite (bind_raise _ _ _ Hr) in Hp. cbn [fst snd trace_of result_of] in Hp.
    split; [by rewrite Hp|].
    rewrite (iteration_raise w st _ _ _ Hp). cbn [fst snd].
    split.
    + by rewrite except_cursor.
    + apply elem_of_app. right. apply elem_of_app. left.
      apply (except_logs (Exc EmptyResponseFromAPI _)).
  - intros Hd.
    pose proof (poll_fetch_return w st _ Hf) as Hp.
    eexists.
    destruct response as [| | | | | |d]; try (by destruct (Hd d));
      (split; [by rewrite Hp|]);
      rewrite (iteration_raise w st _ _ _ Hp); cbn [fst snd];
      (split; [by rewrite except_cursor|]);
      apply elem_of_app; right; apply elem_of_app; left;
      apply (except_logs (Exc AttributeError _)).
Qed.

(** ** The cursor *)

Lemma cursors_ascend (ws : list world) :
  ∀ (c : Z) (prev : string),
    dates_ascend c ws →
    ascending (JNum c)
      (cursors ws {| current_timestamp := JNum c; prev_msg := prev |}).
Proof.
  induction ws as [|w ws IH]; intros c prev H; [exact I|].
  cbn [cursors ascending dates_ascend] in *.
  pose proof (iteration_cursor w
                {| current_timestamp := JNum c; prev_msg := prev |}) as Hc.
  cbn [current_timestamp] in Hc.
  destruct (iteration w _) as [t [c' prev']]. cbn [snd current_timestamp] in *.
  subst c'.
  destruct (reported_date w) as [[| |n| | | |]|]; cbn [default]; try done.
  - destruct H as [Hle H]. split; [exact Hle|]. by apply IH.
  - split; [cbn; lia|]. by apply IH.
Qed.

(** C4, as amended.  A pass whose fetch decodes to a mapping sets the
    cursor to the response's [current_date], or to the clock when the
    key is absent; every other pass leaves the cursor as it was.
    Nothing compares the new value with the old one, so the cursor is
    non-decreasing along a run exactly as far as the reported dates
    are: when each is an integer no smaller than the cursor it
    replaces. *)
Theorem cursor_follows_reports (ws : list world) (c : Z) (prev : string) :
  dates_ascend c ws →
  (∀ w st, current_timestamp (iteration w st).2
           = default (current_timestamp st) (reported_date w))
  ∧ ascending (JNum c)
      (cursors ws {| current_timestamp := JNum c; prev_msg := prev |}).
Proof.
  intros H. split; [apply iteration_cursor|by apply cursors_ascend].
Qed.

(** ** Deduplication *)

Lemma send_message_sent (message : string) (d : delivery) :
  sent (send_message message d) = [message].
Proof. by destruct d. Qed.

Lemma notify_sent (message : string) (d : delivery) (st : loop_state) :
  sent (notify message d st).1
  = if is_new message (prev_msg st) then [message] else [].
Proof.
  unfold notify, is_new. destruct (_ && _); cbn [fst]; [|done].
  apply send_message_sent.
Qed.

Lemma notify_prev_msg (message : string) (d : delivery) (st : loop_state) :
  prev_msg (notify message d st).2
  = if is_new message (prev_msg st) then message else prev_msg st.
Proof. unfold notify, is_new. by destruct (_ && _). Qed.

Lemma notify_old (message : string) (d : delivery) (st : loop_state) :
  is_new message (prev_msg st) = false →
  notify message d st = ([Log INFO message], st).
Proof. unfold notify, is_new. by intros ->. Qed.

Lemma is_new_spec (message prev : string) :
  is_new message prev = true
  ↔ message ≠ prev ∧ contains prev message = false.
Proof.
  unfold is_new. rewrite andb_true_iff, !negb_true_iff.
  by rewrite String.eqb_neq.
Qed.

Lemma is_new_twice (message prev : string) :
  is_new message (if is_new message prev then message else prev) = false.
Proof.
  destruct (is_new message prev) eqn:H; [|done].
  unfold is_new. by rewrite String.eqb_refl.
Qed.

(** What a pass that rendered a message sends and remembers. *)
Lemma iteration_rendered (w : world) (st : loop_state) (message : string) :
  (poll w st).2 = Return message →
  sent (iteration w st).1
  = (if is_new message (prev_msg st) then [message] else [])
  ∧ prev_msg (iteration w st).2
    = (if is_new message (prev_msg st) then message else prev_msg st)
  ∧ (is_new message (prev_msg st) = false →
     Log INFO message ∈ (iteration w st).1).
Proof.
  intros Hm. destruct (poll_quiet w st) as [Hs Hp].
  destruct (poll w st) as [[t st'] r] eqn:Hpoll. cbn [fst snd] in *. subst r.
  rewrite (iteration_return w st st' t message Hpoll). cbn [fst snd].
  rewrite !sent_app, Hs, notify_sent, notify_prev_msg, Hp.
  split; [by rewrite app_nil_r|]. split; [done|].
  intros Hold. rewrite notify_old by by rewrite Hp.
  apply elem_of_app. right. apply list_elem_of_here.
Qed.

(** C1, as amended.  When two consecutive passes render the same
    message, the second never sends it and only logs it; the first
    sends it exactly when it is new to the stored text, that is,
    differs from it and is not contained in it, and otherwise sends
    nothing either.  So the text goes out at most once, and once when
    it was new. *)
Theorem dedup_law (w1 w2 : world) (st : loop_state) (message : string) :
  (poll w1 st).2 = Return message →
  (poll w2 (iteration w1 st).2).2 = Return message →
  sent (iteration w1 st).1
  = (if is_new message (prev_msg st) then [message] else [])
  ∧ (is_new message (prev_msg st) = true
     ↔ message ≠ prev_msg st ∧ contains (prev_msg st) message = false)
  ∧ sent (iteration w2 (iteration w1 st).2).1 = []
  ∧ Log INFO message ∈ (iteration w2 (iteration w1 st).2).1
  ∧ prev_msg (iteration w2 (iteration w1 st).2).2
    = prev_msg (iteration w1 st).2.
Proof.
  intros H1 H2.
  destruct (iteration_rendered w1 st message H1) as (Hs1 & Hp1 & _).
  destruct (iteration_rendered w2 _ message H2) as (Hs2 & Hp2 & Hl2).
  rewrite Hp1 in Hs2, Hp2, Hl2. rewrite is_new_twice in Hs2, Hp2, Hl2.
  split; [done|]. split; [apply is_new_spec|].
  split; [done|]. split; [by apply Hl2|]. by rewrite Hp2, Hp1.
Qed.

(** C2, as amended.  When the validated list of homeworks is empty the
    message of the pass is the fixed text; like any other message it is
    sent when it is new to the stored text, and only logged when it is
    not. *)
Theorem empty_homeworks_message (w : world) (st : loop_state)
    (response : json) :
  fetched w = Some response →
  result_of (check_response response) = Return [] →
  (poll w st).2 = Return "Нет новых статусов"
  ∧ sent (iteration w st).1
    = (if is_new "Нет новых статусов" (prev_msg st)
       then ["Нет новых статусов"] else [])
  ∧ (is_new "Нет новых статусов" (prev_msg st) = false →
     Log INFO "Нет новых статусов" ∈ (iteration w st).1).
Proof.
  intros Hf Hr.
  destruct (check_response_return response [] Hr) as (d & -> & _ & _).
  assert ((poll w st).2 = Return no_new_statuses) as Hm.
  { rewrite (poll_fetch_return w st _ Hf). cbn [snd].
    by rewrite (bind_return _ _ [] Hr). }
  destruct (iteration_rendered w st _ Hm) as (Hs & _ & Hl).
  done.
Qed.

(** ** Start-up *)

Lemma env_truthy_false (v : option string) :
  env_truthy v = false ↔ missing v.
Proof.
  unfold env_truthy, missing. destruct v as [s|].
  - rewrite negb_false_iff, String.eqb_eq. split.
    + intros ->. by right.
    + intros [H|H]; congruence.
  - split; [by left|done].
Qed.

Lemma tokens_missing :
  all [env_truthy PRACTICUM_TOKEN; env_truthy TELEGRAM_TOKEN;
       env_truthy TELEGRAM_CHAT_ID] = false
  ↔ missing PRACTICUM_TOKEN ∨ missing TELEGRAM_TOKEN
    ∨ missing TELEGRAM_CHAT_ID.
Proof.
  rewrite <- !env_truthy_false. unfold all; cbn.
  destruct (env_truthy PRACTICUM_TOKEN), (env_truthy TELEGRAM_TOKEN),
    (env_truthy TELEGRAM_CHAT_ID); cbn; intuition congruence.
Qed.

Lemma startup_cases (b : boot) :
  startup b
  = ([Log INFO "Проверка наличия всех токенов"],
     if all [env_truthy PRACTICUM_TOKEN; env_truthy TELEGRAM_TOKEN;
             env_truthy TELEGRAM_CHAT_ID]
     then match bot_init b with
          | Some e => Raise (Exc InvalidToken (err_str e))
          | None => Return tt
          end
     else Raise (Exc ValueError "Отсутствует один из токенов")).
Proof.
  unfold startup, check_tokens. destruct (all _); cbn; [|done].
  by destruct (bot_init b).
Qed.

(** C9, as amended.  When one of the three credentials is absent or
    empty, the process logs at critical severity and stops; no pass of
    the loop is made.  The process stops on one more path, also before
    the loop and also logged as critical: when the credentials are there
    but the bot client cannot be built from the token.  On no other
    path does it stop: once the loop is entered it goes on. *)
Theorem critical_stop (b : boot) (ws : list world) :
  (missing PRACTICUM_TOKEN ∨ missing TELEGRAM_TOKEN
   ∨ missing TELEGRAM_CHAT_ID →
     main b ws
     = ([Log INFO "Проверка наличия всех токенов";
         Log CRITICAL ("Произошла критическая ошибка: "
                       +:+ "Отсутствует один из токенов")],
        Stopped))
  ∧ ((main b ws).2 = Stopped
     ↔ (missing PRACTICUM_TOKEN ∨ missing TELEGRAM_TOKEN
        ∨ missing TELEGRAM_CHAT_ID)
       ∨ is_Some (bot_init b))
  ∧ ((main b ws).2 = Stopped →
     requests (main b ws).1 = [] ∧ sent (main b ws).1 = []
     ∧ ∃ msg, logged CRITICAL (main b ws).1 = [msg]).
Proof.
  unfold main. rewrite startup_cases, <- tokens_missing.
  destruct (all _).
  - split; [done|].
    destruct (bot_init b) as [e|].
    + split; [|by eauto]. split; [intros _; right; by eauto|done].
    + destruct (while_True ws initial_state) as [t st]. cbn [snd].
      split; [|done]. split; [done|].
      intros [?|[? ?]]; done.
  - split; [done|]. split; [|by eauto]. split; [by left|done].
Qed.

(** ** What [prev_msg] holds *)

Lemma parse_status_shape (homework : json) (message : string) :
  result_of (parse_status homework) = Return message →
  ∃ rest, message = "Изменился статус проверки работы " +:+ rest.
Proof.
  unfold parse_status.
  destruct homework as [| | | | s | l | d]; cbn; try discriminate.
  - destruct (contains s "homework_name"); discriminate.
  - destruct (existsb _ l); discriminate.
  - destruct (d !! "homework_name"); cbn; [|discriminate].
    destruct (default JNull (d !! "status")) as [| | | | s | |]; cbn;
      try discriminate.
    destruct (HOMEWORK_VERDICTS !! s); cbn; [|discriminate].
    intros [= <-]. eauto.
Qed.

Lemma poll_relayed (w : world) (st : loop_state) (message : string) :
  (poll w st).2 = Return message → relayed message.
Proof.
  destruct (fetched w) as [response|] eqn:Hf.
  - rewrite (poll_fetch_return w st response Hf).
    destruct response as [| | | | | |d]; cbn [snd]; try discriminate.
    destruct (result_of (check_response (JDict d))) as [l|e] eqn:Hr.
    + rewrite (bind_return _ _ l Hr). cbn [snd].
      destruct l as [|homework l].
      * intros [= <-]. right. by left.
      * intros H. right. right. left.
        by apply (parse_status_shape homework).
    + by rewrite (bind_raise _ _ e Hr).
  - destruct (get_api_answer_raises (current_timestamp st) (clock_fetch w) w Hf)
      as [e He].
    by rewrite (poll_fetch_raise w st e He).
Qed.

Lemma iteration_relayed (w : world) (st : loop_state) :
  relayed (prev_msg st) → relayed (prev_msg (iteration w st).2).
Proof.
  intros Hst.
  destruct (poll w st) as [[t st'] [message|e]] eqn:Hp.
  - assert ((poll w st).2 = Return message) as Hm by by rewrite Hp.
    destruct (iteration_rendered w st message Hm) as (_ & -> & _).
    destruct (is_new _ _); [by eapply poll_relayed|done].
  - rewrite (iteration_raise w st st' t e Hp). cbn [snd].
    destruct (poll_quiet w st) as [_ Hq]. rewrite Hp in Hq. cbn in Hq.
    unfold except. destruct (caught_quietly e); cbn [snd prev_msg].
    + by rewrite Hq.
    + right. right. right. eauto.
Qed.

Lemma while_True_relayed (ws : list world) :
  ∀ st, relayed (prev_msg st) → relayed (prev_msg (while_True ws st).2).
Proof.
  induction ws as [|w ws IH]; intros st Hst; [done|].
  rewrite while_True_cons. cbn [snd]. by apply IH, iteration_relayed.
Qed.

Lemma relayed_not_start (s : string) : relayed s → s ≠ start_message.
Proof.
  unfold start_message, no_new_statuses, failure_prefix.
  intros [->|[->|[[rest ->]|[rest ->]]]]; cbn; discriminate.
Qed.

(** C10.  When the three credentials are there and the bot client is
    built, the trace up to the first pass of the loop is: the token
    check, one call sending the start message to the chat, and the same
    text logged.  The loop is entered with the cursor at 0 and
    [prev_msg] empty, and no pass ever stores the start message in
    [prev_msg]. *)
Theorem start_message_once (b : boot) (ws : list world) :
  ¬ missing PRACTICUM_TOKEN → ¬ missing TELEGRAM_TOKEN →
  ¬ missing TELEGRAM_CHAT_ID → bot_init b = None →
  main b ws
  = (Log INFO "Проверка наличия всех токенов"
       :: send_message "Бот начал работу" (start_delivery b)
       ++ Log INFO "Бот начал работу" :: (while_True ws initial_state).1,
     Polling (while_True ws initial_state).2)
  ∧ sent (send_message "Бот начал работу" (start_delivery b))
    = ["Бот начал работу"]
  ∧ initial_state = {| current_timestamp := JNum 0; prev_msg := "" |}
  ∧ prev_msg (while_True ws initial_state).2 ≠ "Бот начал работу".
Proof.
  intros H1 H2 H3 Hb.
  split; [|split; [apply send_message_sent|split; [done|]]].
  - unfold main. rewrite startup_cases, Hb.
    destruct (all _) eqn:Ha.
    + by destruct (while_True ws initial_state).
    + apply tokens_missing in Ha. tauto.
  - apply relayed_not_start, while_True_relayed. by left.
Qed.

(** * Further properties *)

(** ** The substring test *)

Lemma prefix_spec (needle hay : string) :
  String.prefix needle hay = true ↔ ∃ post, hay = needle +:+ post.
Proof.
  revert hay. induction needle as [|a needle IH]; intros hay.
  - destruct hay; (split; [eauto|done]).
  - destruct hay as [|b hay]; cbn.
    + split; [done|]. intros [post H]. discriminate H.
    + destruct (ascii_dec a b) as [->|Hne].
      * rewrite IH. split; intros [post H]; exists post.
        -- by rewrite H.
        -- by injection H.
      * split; [done|]. intros [post H]. injection H as H1 H2. done.
Qed.

Lemma contains_unfold (hay needle : string) :
  contains hay needle
  = String.prefix needle hay
    || match hay with
       | EmptyString => false
       | String _ hay' => contains hay' needle
       end.
Proof. by destruct hay. Qed.

Lemma contains_spec (hay needle : string) :
  contains hay needle = true ↔ ∃ pre post, hay = pre +:+ needle +:+ post.
Proof.
  split.
  - induction hay as [|c hay IH]; rewrite contains_unfold, orb_true_iff.
    + intros [H|H]; [|done]. apply prefix_spec in H as [post H].
      by exists "", post.
    + intros [H|H].
      * apply prefix_spec in H as [post H]. by exists "", post.
      * destruct (IH H) as (pre & post & ->). by exists (String c pre), post.
  - intros (pre & post & ->). induction pre as [|c pre IH].
    + rewrite contains_unfold. apply orb_true_iff. left.
      apply prefix_spec. by exists post.
    + rewrite contains_unfold. apply orb_true_iff. by right.
Qed.

Lemma contains_refl (s : string) : contains s s = true.
Proof.
  apply contains_spec. exists "", "". change (s = s +:+ "").
  induction s as [|c s IH]; [reflexivity|].
  change (String c s = String c (s +:+ "")). by rewrite <- IH.
Qed.

Lemma contains_empty (needle : string) :
  needle ≠ "" → contains "" needle = false.
Proof. by destruct needle. Qed.

Lemma is_new_contains (message prev : string) :
  is_new message prev = negb (contains prev message).
Proof.
  unfold is_new. destruct (String.eqb_spec message prev) as [->|_]; [|done].
  by rewrite contains_refl.
Qed.

(** X1.  Line 141 lets a message through exactly when it does not occur
    in the stored text: the first half of the test, that the two differ,
    adds nothing to the second. *)
Theorem is_new_not_substring (message prev : string) :
  is_new message prev = negb (contains prev message)
  ∧ (is_new message prev = true
     ↔ ¬ ∃ pre post, prev = pre +:+ message +:+ post).
Proof.
  pose proof (is_new_contains message prev) as H.
  split; [exact H|].
  rewrite H, negb_true_iff, <- contains_spec.
  by destruct (contains prev message).
Qed.


(** ** The shape of a pass *)

Lemma status_message_trace (response : json) :
  ∃ msgs, trace_of (homeworks ← check_response response;
                    status_message homeworks) = Log INFO <$> msgs.
Proof.
  destruct (result_of (check_response response)) as [l|e] eqn:Hr.
  - rewrite (bind_return _ _ l Hr), check_response_trace.
    destruct l as [|homework l].
    + by exists ["Проверка ответа API на корректность"].
    + change (status_message (homework :: l)) with (parse_status homework).
      rewrite parse_status_trace.
      by exists ["Проверка ответа API на корректность";
                 "Проводим проверки и извлекаем статус работы"].
  - rewrite (bind_raise _ _ e Hr), check_response_trace.
    by exists ["Проверка ответа API на корректность"].
Qed.

(** The first part of a pass is the fetch followed by log lines. *)
Lemma poll_trace (w : world) (st : loop_state) :
  ∃ msgs, (poll w st).1.1
          = trace_of (get_api_answer (current_timestamp st) (clock_fetch w)
                        (network w))
            ++ (Log INFO <$> msgs).
Proof.
  destruct (fetched w) as [response|] eqn:Hf.
  - rewrite (poll_fetch_return w st response Hf).
    destruct response as [| | | | | |d]; cbn [fst]; try (by exists []).
    destruct (status_message_trace (JDict d)) as [msgs H].
    exists msgs. by rewrite H.
  - destruct (get_api_answer_raises (current_timestamp st) (clock_fetch w) w Hf)
      as [e He].
    rewrite (poll_fetch_raise w st e He). cbn [fst].
    exists []. by rewrite app_nil_r.
Qed.

Lemma iteration_after_poll (w : world) (st : loop_state) :
  iteration w st
  = ((poll w st).1.1
     ++ (after_poll (poll w st).1.2 (poll w st).2 (telegram w)).1
     ++ [Sleep RETRY_PERIOD],
     (after_poll (poll w st).1.2 (poll w st).2 (telegram w)).2).
Proof.
  destruct (poll w st) as [[t st'] [message|e]] eqn:Hp.
  - by rewrite (iteration_return w st st' t message Hp).
  - by rewrite (iteration_raise w st st' t e Hp).
Qed.

(** The second part of a pass is a log line, a send, or both. *)
Lemma after_poll_trace (st : loop_state) (r : outcome string) (d : delivery) :
  ∃ m, (after_poll st r d).1 = [Log INFO m]
       ∨ (after_poll st r d).1 = [Log ERROR m]
       ∨ (after_poll st r d).1 = send_message m d
       ∨ (after_poll st r d).1 = Log ERROR m :: send_message m d.
Proof.
  destruct r as [message|e]; cbn [after_poll].
  - exists message. unfold notify. destruct (_ && _); cbn [fst]; auto.
  - exists (failure_prefix +:+ exc_str e). unfold except.
    destruct (caught_quietly e); cbn [fst]; [auto|].
    destruct (negb _); auto.
Qed.

Lemma after_poll_sent (st : loop_state) (r : outcome string) (d : delivery) :
  sent (after_poll st r d).1
  = match r with
    | Return message => if is_new message (prev_msg st) then [message] else []
    | Raise e =>
        if caught_quietly e then []
        else if contains (prev_msg st) (failure_prefix +:+ exc_str e) then []
             else [failure_prefix +:+ exc_str e]
    end.
Proof.
  destruct r as [message|e]; cbn [after_poll]; [apply notify_sent|].
  unfold except. destruct (caught_quietly e); cbn [fst]; [done|].
  destruct (contains _ _); cbn; [done|]. apply send_message_sent.
Qed.

Lemma after_poll_prev_msg (st : loop_state) (r : outcome string)
    (d : delivery) :
  prev_msg (after_poll st r d).2
  = match r with
    | Return message => if is_new message (prev_msg st) then message
                        else prev_msg st
    | Raise e => if caught_quietly e then prev_msg st
                 else failure_prefix +:+ exc_str e
    end.
Proof.
  destruct r as [message|e]; cbn [after_poll]; [apply notify_prev_msg|].
  unfold except. by destruct (caught_quietly e).
Qed.

Lemma after_poll_state (st : loop_state) (r : outcome string)
    (d d' : delivery) :
  (after_poll st r d).2 = (after_poll st r d').2.
Proof.
  destruct r as [message|e]; cbn [after_poll].
  - unfold notify. by destruct (_ && _).
  - unfold except. by destruct (caught_quietly e).
Qed.

Lemma iteration_sent (w : world) (st : loop_state) :
  sent (iteration w st).1
  = sent (after_poll (poll w st).1.2 (poll w st).2 (telegram w)).1.
Proof.
  rewrite iteration_after_poll. cbn [fst].
  rewrite !sent_app, (proj1 (poll_quiet w st)). cbn. apply app_nil_r.
Qed.

(** A pass sends nothing, or one text; that text did not occur in
    [prev_msg] before the pass and is [prev_msg] after it. *)
Lemma iteration_sent_cases (w : world) (st : loop_state) :
  sent (iteration w st).1 = []
  ∨ ∃ m, sent (iteration w st).1 = [m]
         ∧ prev_msg (iteration w st).2 = m
         ∧ contains (prev_msg st) m = false.
Proof.
  rewrite iteration_sent, iteration_after_poll. cbn [snd].
  rewrite after_poll_sent, after_poll_prev_msg.
  rewrite (proj2 (poll_quiet w st)).
  destruct ((poll w st).2) as [message|e].
  - destruct (is_new message (prev_msg st)) eqn:Hn; [|by left].
    right. exists message. split; [done|]. split; [done|].
    by apply is_new_spec in Hn as [_ Hn].
  - destruct (caught_quietly e); [by left|].
    destruct (contains _ _) eqn:Hc; [by left|].
    right. by eexists.
Qed.

Lemma omap_logs {A} (f : event → option A) (lvl : level)
    (msgs : list string) :
  (∀ m, f (Log lvl m) = None) → omap f (Log lvl <$> msgs) = [].
Proof.
  intros Hf. induction msgs as [|m msgs IH]; [done|].
  cbn. by rewrite Hf.
Qed.

(** Log lines apart, a pass is the request, what it sends, the sleep. *)
Lemma iteration_events {A} (f : event → option A) (w : world)
    (st : loop_state) :
  (∀ l m, f (Log l m) = None) →
  omap f (iteration w st).1
  = omap f (Get (params_request (current_timestamp st) (clock_fetch w))
            :: (SendMessage TELEGRAM_CHAT_ID <$> sent (iteration w st).1)
            ++ [Sleep RETRY_PERIOD]).
Proof.
  intros Hf. rewrite iteration_sent, iteration_after_poll. cbn [fst].
  destruct (poll_trace w st) as [msgs ->].
  rewrite get_api_answer_trace.
  rewrite !omap_app, omap_logs by done.
  change (?a :: ?l ++ ?l') with ([a] ++ l ++ l'). rewrite !omap_app.
  cbn [omap list_omap]. rewrite Hf, app_nil_r. f_equal. f_equal.
  destruct (after_poll_trace (poll w st).1.2 (poll w st).2 (telegram w))
    as [m [-> | [-> | [-> | ->]]]]; cbn; rewrite ?Hf; try done;
    destruct (telegram w); cbn; by rewrite ?Hf.
Qed.


(** ** What a pass sends *)

(** X2.  A pass hands at most one text to the chat; a text it sends did
    not occur in [prev_msg] before the pass and is [prev_msg] after it,
    whether the send was a status or a failure report. *)
Theorem one_send_remembered (w : world) (st : loop_state) :
  (length (sent (iteration w st).1) ≤ 1)%nat
  ∧ ∀ m, m ∈ sent (iteration w st).1 →
         prev_msg (iteration w st).2 = m ∧ contains (prev_msg st) m = false.
Proof.
  destruct (iteration_sent_cases w st) as [->|(m & -> & Hp & Hc)].
  - split; [cbn; lia|]. intros m H. by apply elem_of_nil in H.
  - split; [cbn; lia|]. intros m' H.
    apply list_elem_of_singleton in H as ->. done.
Qed.

(** X3.  A text sent in one pass is never sent again by the pass that
    follows, whatever that pass fetches and however it ends. *)
Theorem no_immediate_repeat (w1 w2 : world) (st : loop_state) (m : string) :
  m ∈ sent (iteration w1 st).1 →
  m ∉ sent (iteration w2 (iteration w1 st).2).1.
Proof.
  intros H1 H2.
  destruct (iteration_sent_cases w1 st) as [E|(m1 & E & Hp & _)];
    rewrite E in H1; [by apply elem_of_nil in H1|].
  apply list_elem_of_singleton in H1 as ->.
  destruct (iteration_sent_cases w2 (iteration w1 st).2)
    as [E2|(m2 & E2 & _ & Hc)]; rewrite E2 in H2;
    [by apply elem_of_nil in H2|].
  apply list_elem_of_singleton in H2 as ->.
  rewrite Hp, contains_refl in Hc. discriminate Hc.
Qed.

Lemma poll_produced (w : world) (st : loop_state) (message : string) :
  (poll w st).2 = Return message →
  message = no_new_statuses
  ∨ ∃ rest, message = "Изменился статус проверки работы " +:+ rest.
Proof.
  destruct (fetched w) as [response|] eqn:Hf.
  - rewrite (poll_fetch_return w st response Hf).
    destruct response as [| | | | | |d]; cbn [snd]; try discriminate.
    destruct (result_of (check_response (JDict d))) as [l|e] eqn:Hr.
    + rewrite (bind_return _ _ l Hr). cbn [snd].
      destruct l as [|homework l].
      * intros [= <-]. by left.
      * intros H. right. by apply (parse_status_shape homework).
    + by rewrite (bind_raise _ _ e Hr).
  - destruct (get_api_answer_raises (current_timestamp st) (clock_fetch w) w Hf)
      as [e He].
    by rewrite (poll_fetch_raise w st e He).
Qed.

Lemma produced_nonempty (s : string) : produced s → s ≠ "".
Proof.
  unfold no_new_statuses, failure_prefix.
  intros [->|[[rest ->]|[rest ->]]]; cbn; discriminate.
Qed.

(** X4.  On the first pass after start-up [prev_msg] is empty, so the
    pass always writes to the chat when it renders a message, and also
    when it ends in an exception the first handler does not take. *)
Theorem first_pass_notifies (w : world) :
  (∀ m, (poll w initial_state).2 = Return m →
        sent (iteration w initial_state).1 = [m])
  ∧ (∀ e, (poll w initial_state).2 = Raise e → caught_quietly e = false →
          sent (iteration w initial_state).1 = [failure_prefix +:+ exc_str e]).
Proof.
  split.
  - intros m Hm. rewrite iteration_sent, after_poll_sent, Hm.
    rewrite (proj2 (poll_quiet w initial_state)). cbn [prev_msg initial_state].
    assert (m ≠ "") as Hne.
    { apply produced_nonempty.
      destruct (poll_produced w initial_state m Hm) as [->|H]; [by left|].
      right. by left. }
    rewrite (is_new_contains m "").
    by rewrite contains_empty.
  - intros e He Hq. rewrite iteration_sent, after_poll_sent, He, Hq.
    rewrite (proj2 (poll_quiet w initial_state)). cbn [prev_msg initial_state].
    rewrite contains_empty; [done|].
    apply produced_nonempty. right. right. eauto.
Qed.


Lemma poll_with_telegram (d : delivery) (w : world) (st : loop_state) :
  poll (with_telegram d w) st = poll w st.
Proof. reflexivity. Qed.

(** X5.  How the call to [bot.send_message] ends changes neither the
    texts a pass sends nor the state it leaves: a text whose delivery
    failed is stored in [prev_msg] like a delivered one and is not sent
    again.  The failure itself is logged as an error. *)
Theorem delivery_not_retried (w : world) (st : loop_state) (d : delivery) :
  (iteration (with_telegram d w) st).2 = (iteration w st).2
  ∧ sent (iteration (with_telegram d w) st).1 = sent (iteration w st).1
  ∧ ∀ e m, telegram w = TelegramFailure e →
           m ∈ sent (iteration w st).1 →
           Log ERROR ("Ошибка отправки статуса в telegram: " +:+ err_str e)
           ∈ (iteration w st).1.
Proof.
  split; [|split].
  - rewrite !iteration_after_poll, poll_with_telegram. cbn [snd].
    apply after_poll_state.
  - by rewrite !iteration_sent, !after_poll_sent, poll_with_telegram.
  - intros e m He Hm. rewrite iteration_sent in Hm.
    rewrite iteration_after_poll. cbn [fst].
    apply elem_of_app. right. apply elem_of_app. left.
    destruct (after_poll_trace (poll w st).1.2 (poll w st).2 (telegram w))
      as [m' [E | [E | [E | E]]]]; rewrite E in Hm |- *; rewrite He in *;
      cbn in Hm |- *; try (by apply elem_of_nil in Hm).
    + do 2 apply list_elem_of_further. apply list_elem_of_here.
    + do 3 apply list_elem_of_further. apply list_elem_of_here.
Qed.

(** ** What a run requests and how long it sleeps *)

Lemma iteration_slept (w : world) (st : loop_state) :
  slept (iteration w st).1 = [RETRY_PERIOD].
Proof.
  unfold slept. rewrite iteration_events by done.
  by destruct (iteration_sent_cases w st) as [->|(m & -> & _)].
Qed.

Lemma iteration_requests (w : world) (st : loop_state) :
  requests (iteration w st).1
  = [params_request (current_timestamp st) (clock_fetch w)].
Proof.
  unfold requests. rewrite iteration_events by done.
  by destruct (iteration_sent_cases w st) as [->|(m & -> & _)].
Qed.

Lemma iteration_chats (w : world) (st : loop_state) :
  chats (iteration w st).1 = (λ _, TELEGRAM_CHAT_ID) <$> sent (iteration w st).1.
Proof.
  unfold chats. rewrite iteration_events by done.
  by destruct (iteration_sent_cases w st) as [->|(m & -> & _)].
Qed.

(** X6.  Every pass of the loop ends in exactly one sleep of 600
    seconds, also a pass that failed: a run of n passes sleeps n times. *)
Theorem one_sleep_per_pass (ws : list world) (st : loop_state) :
  slept (while_True ws st).1 = replicate (length ws) 600.
Proof.
  revert st. induction ws as [|w ws IH]; intros st; [done|].
  rewrite while_True_cons. cbn [fst length replicate].
  unfold slept in *. rewrite omap_app. fold (slept (iteration w st).1).
  by rewrite iteration_slept, IH.
Qed.

(** X7.  Every pass makes exactly one request, whatever happened in the
    passes before: a run of n passes makes n requests, each to the fixed
    endpoint, with the one [Authorization] header and the one query
    parameter [from_date]. *)
Theorem one_request_per_pass (ws : list world) (st : loop_state) :
  length (requests (while_True ws st).1) = length ws
  ∧ Forall (λ rq, url rq = ENDPOINT ∧ headers rq = HEADERS
                  ∧ dom (params rq) = {[ "from_date" ]})
      (requests (while_True ws st).1).
Proof.
  revert st. induction ws as [|w ws IH]; intros st; [by split|].
  rewrite while_True_cons. cbn [fst length].
  unfold requests in *. rewrite omap_app.
  fold (requests (iteration w st).1). rewrite iteration_requests.
  destruct (IH (iteration w st).2) as [IH1 IH2].
  split; [cbn; by rewrite IH1|].
  apply Forall_app. split; [|exact IH2].
  apply Forall_singleton. split; [done|]. split; [done|].
  unfold params_request. cbn [params]. apply dom_singleton_L.
Qed.

Lemma fetch_failed_fetched (w : world) : fetch_failed w → fetched w = None.
Proof.
  unfold fetch_failed, fetched. destruct (network w) as [r|e]; [|done].
  intros H. by destruct (Z.eqb_spec (status_code r) HTTPStatus_OK).
Qed.

(** X8.  However long the API stays unreachable or answers with another
    status than 200, the cursor stays where it was, and every request of
    the outage is the one for that cursor. *)
Theorem outage_keeps_cursor (ws : list world) (st : loop_state) :
  Forall fetch_failed ws →
  current_timestamp (while_True ws st).2 = current_timestamp st
  ∧ requests (while_True ws st).1
    = (λ w, params_request (current_timestamp st) (clock_fetch w)) <$> ws.
Proof.
  revert st. induction ws as [|w ws IH]; intros st Hws; [by split|].
  apply Forall_cons in Hws as [Hw Hws].
  rewrite while_True_cons. cbn [fst snd].
  assert (current_timestamp (iteration w st).2 = current_timestamp st) as Hc.
  { rewrite iteration_cursor. unfold reported_date.
    by rewrite (fetch_failed_fetched w Hw). }
  destruct (IH (iteration w st).2 Hws) as [IH1 IH2].
  split; [by rewrite IH1|].
  unfold requests in *. rewrite omap_app.
  fold (requests (iteration w st).1).
  by rewrite iteration_requests, IH2, Hc.
Qed.

(** X9.  After a pass whose fetch decoded to a mapping with a non-zero
    integer [current_date], the next pass asks the API from exactly that
    date. *)
Theorem next_request_from_reported_date (w w' : world) (st : loop_state)
    (d : gmap string json) (n : Z) :
  fetched w = Some (JDict d) → d !! "current_date" = Some (JNum n) → n ≠ 0 →
  requests (iteration w' (iteration w st).2).1
  = [{| url := ENDPOINT; headers := HEADERS;
        params := {[ "from_date" := JNum n ]} |}].
Proof.
  intros Hf Hd Hn. rewrite iteration_requests, iteration_cursor.
  unfold reported_date. rewrite Hf, Hd. cbn [from_option id].
  unfold params_request, py_or. cbn [truthy].
  by destruct (Z.eqb_spec n 0).
Qed.


(** ** Exceptions in a pass *)

(** X10.  A pass that ends in an exception always logs the failure text
    as an error.  When the first handler takes the exception, nothing is
    sent and [prev_msg] stays.  Otherwise the failure text becomes
    [prev_msg], and it is sent exactly when it did not occur in the old
    [prev_msg]. *)
Theorem exception_handling (w : world) (st : loop_state) (e : exn) :
  (poll w st).2 = Raise e →
  Log ERROR (failure_prefix +:+ exc_str e) ∈ (iteration w st).1
  ∧ (caught_quietly e = true →
     sent (iteration w st).1 = []
     ∧ prev_msg (iteration w st).2 = prev_msg st)
  ∧ (caught_quietly e = false →
     prev_msg (iteration w st).2 = failure_prefix +:+ exc_str e
     ∧ sent (iteration w st).1
       = if contains (prev_msg st) (failure_prefix +:+ exc_str e) then []
         else [failure_prefix +:+ exc_str e]).
Proof.
  intros He.
  rewrite iteration_sent, iteration_after_poll. cbn [fst snd].
  rewrite after_poll_sent, after_poll_prev_msg, He.
  rewrite (proj2 (poll_quiet w st)).
  split; [|split].
  - apply elem_of_app. right. apply elem_of_app. left. apply except_logs.
  - by intros ->.
  - by intros ->.
Qed.

(** X11.  When two consecutive passes end in the same exception, the
    second sends nothing: a failure that repeats is reported to the chat
    at most once. *)
Theorem repeated_failure_once (w1 w2 : world) (st : loop_state) (e : exn) :
  (poll w1 st).2 = Raise e →
  (poll w2 (iteration w1 st).2).2 = Raise e →
  sent (iteration w2 (iteration w1 st).2).1 = [].
Proof.
  intros H1 H2.
  rewrite (iteration_sent w2), after_poll_sent, H2.
  destruct (caught_quietly e) eqn:Hq; [done|].
  rewrite (proj2 (poll_quiet w2 _)).
  rewrite iteration_after_poll. cbn [snd].
  rewrite after_poll_prev_msg, H1, Hq.
  by rewrite contains_refl.
Qed.

(** ** What reaches the chat *)

Lemma main_cases (b : boot) (ws : list world) :
  main b ws
  = if all [env_truthy PRACTICUM_TOKEN; env_truthy TELEGRAM_TOKEN;
            env_truthy TELEGRAM_CHAT_ID]
    then match bot_init b with
         | Some e =>
             ([Log INFO "Проверка наличия всех токенов";
               Log CRITICAL ("Произошла критическая ошибка: " +:+ err_str e)],
              Stopped)
         | None =>
             (Log INFO "Проверка наличия всех токенов"
                :: send_message start_message (start_delivery b)
                ++ Log INFO start_message :: (while_True ws initial_state).1,
              Polling (while_True ws initial_state).2)
         end
    else ([Log INFO "Проверка наличия всех токенов";
           Log CRITICAL ("Произошла критическая ошибка: "
                         +:+ "Отсутствует один из токенов")],
          Stopped).
Proof.
  unfold main. rewrite startup_cases.
  destruct (all _); [|done]. destruct (bot_init b); [done|].
  by destruct (while_True ws initial_state).
Qed.

Lemma while_True_chats (ws : list world) (st : loop_state) :
  Forall (λ c, c = TELEGRAM_CHAT_ID) (chats (while_True ws st).1).
Proof.
  revert st. induction ws as [|w ws IH]; intros st; [by constructor|].
  rewrite while_True_cons. cbn [fst]. unfold chats in *. rewrite omap_app.
  apply Forall_app. split; [|apply IH].
  fold (chats (iteration w st).1). rewrite iteration_chats.
  apply Forall_fmap, Forall_true. done.
Qed.

(** X12.  Whatever the process sends, it sends to the one chat named by
    [TELEGRAM_CHAT_ID]. *)
Theorem only_configured_chat (b : boot) (ws : list world) :
  Forall (λ c, c = TELEGRAM_CHAT_ID) (chats (main b ws).1).
Proof.
  rewrite main_cases. destruct (all _); [|by constructor].
  destruct (bot_init b); [by constructor|]. cbn [fst].
  change (?a :: ?l ++ ?b :: ?l') with ([a] ++ l ++ [b] ++ l').
  unfold chats. rewrite !omap_app. fold (chats (while_True ws initial_state).1).
  repeat (apply Forall_app; split); try (by constructor).
  - destruct (start_delivery b); cbn; by repeat constructor.
  - apply while_True_chats.
Qed.

Lemma iteration_sent_produced (w : world) (st : loop_state) :
  Forall produced (sent (iteration w st).1).
Proof.
  rewrite iteration_sent, after_poll_sent.
  destruct ((poll w st).2) as [message|e] eqn:Hp.
  - destruct (is_new _ _); [|by constructor].
    apply Forall_singleton.
    destruct (poll_produced w st message Hp) as [->|H]; [by left|].
    right. by left.
  - destruct (caught_quietly e); [by constructor|].
    destruct (contains _ _); [by constructor|].
    apply Forall_singleton. right. right. eauto.
Qed.

Lemma while_True_sent_produced (ws : list world) (st : loop_state) :
  Forall produced (sent (while_True ws st).1).
Proof.
  revert st. induction ws as [|w ws IH]; intros st; [by constructor|].
  rewrite while_True_cons. cbn [fst]. rewrite sent_app.
  apply Forall_app. split; [apply iteration_sent_produced|apply IH].
Qed.

(** X13.  The process never sends an empty text, and nothing but the
    start message, the fixed no-new-status text, a status text, or a
    failure report. *)
Theorem sent_texts_produced (b : boot) (ws : list world) :
  Forall (λ m, m ≠ "" ∧ (m = "Бот начал работу" ∨ produced m))
    (sent (main b ws).1).
Proof.
  rewrite main_cases. destruct (all _); [|by constructor].
  destruct (bot_init b); [by constructor|]. cbn [fst].
  change (?a :: ?l ++ ?b :: ?l') with ([a] ++ l ++ [b] ++ l').
  rewrite !sent_app, send_message_sent.
  repeat (apply Forall_app; split); try (by constructor).
  - apply Forall_singleton. split; [done|by left].
  - eapply Forall_impl; [apply while_True_sent_produced|].
    intros m Hm. split; [by apply produced_nonempty|by right].
Qed.

Lemma iteration_no_critical (w : world) (st : loop_state) :
  logged CRITICAL (iteration w st).1 = [].
Proof.
  rewrite iteration_after_poll. cbn [fst].
  destruct (poll_trace w st) as [msgs ->]. rewrite get_api_answer_trace.
  unfold logged. rewrite !omap_app, omap_logs by done.
  destruct (after_poll_trace (poll w st).1.2 (poll w st).2 (telegram w))
    as [m [-> | [-> | [-> | ->]]]]; try done;
    by destruct (telegram w).
Qed.

Lemma while_True_no_critical (ws : list world) (st : loop_state) :
  logged CRITICAL (while_True ws st).1 = [].
Proof.
  revert st. induction ws as [|w ws IH]; intros st; [done|].
  rewrite while_True_cons. cbn [fst]. unfold logged in *.
  rewrite omap_app. fold (logged CRITICAL (iteration w st).1).
  by rewrite iteration_no_critical, IH.
Qed.

(** X14.  The loop never logs at critical severity: a critical record is
    written exactly when the process stops, and then once.  The raise
    that follows a false result of [check_tokens] cannot be reached, as
    [check_tokens] returns [True] or raises. *)
Theorem critical_only_when_stopped (b : boot) (ws : list world) :
  (logged CRITICAL (main b ws).1 = [] ↔ (main b ws).2 ≠ Stopped)
  ∧ (length (logged CRITICAL (main b ws).1) ≤ 1)%nat
  ∧ result_of check_tokens ≠ Return false.
Proof.
  assert (result_of check_tokens ≠ Return false) as Hc.
  { unfold check_tokens. by destruct (all _). }
  rewrite main_cases. destruct (all _).
  - destruct (bot_init b) as [e|].
    + cbn. split; [split; [done|by intros []]|]. split; [lia|done].
    + cbn [fst snd].
      change (?a :: ?l ++ ?b :: ?l') with ([a] ++ l ++ [b] ++ l').
      unfold logged. rewrite !omap_app.
      fold (logged CRITICAL (while_True ws initial_state).1).
      rewrite while_True_no_critical.
      destruct (start_delivery b); cbn;
        (split; [done|]); (split; [lia|done]).
  - cbn. split; [split; [done|by intros []]|]. split; [lia|done].
Qed.


(** ** When the helpers return *)

Lemma check_response_well_shaped (d : gmap string json) (l : list json) :
  d !! "homeworks" = Some (JList l) → is_Some (d !! "current_date") →
  result_of (check_response (JDict d)) = Return l.
Proof.
  intros Hh [c Hc]. unfold check_response; cbn. by rewrite Hh, Hc.
Qed.

(** X15.  The validator returns a list only for a mapping that has
    [current_date] and a list under [homeworks], and the list it returns
    is that one; every other input makes it raise. *)
Theorem check_response_return_iff (response : json) (l : list json) :
  result_of (check_response response) = Return l
  ↔ ∃ d, response = JDict d ∧ d !! "homeworks" = Some (JList l)
         ∧ is_Some (d !! "current_date").
Proof.
  split; [apply check_response_return|].
  intros (d & -> & Hh & Hc). by apply check_response_well_shaped.
Qed.

(** X16.  The formatter returns a text only for a mapping that has
    [homework_name] and whose [status] is a string among the keys of
    [HOMEWORK_VERDICTS]; the text is then the fixed sentence around the
    name, followed by the phrase stored under that key.  A homework that
    is not a mapping never gets a text. *)
Theorem parse_status_return_iff (homework : json) (message : string) :
  result_of (parse_status homework) = Return message
  ↔ ∃ d name s verdict,
      homework = JDict d
      ∧ d !! "homework_name" = Some name
      ∧ d !! "status" = Some (JStr s)
      ∧ HOMEWORK_VERDICTS !! s = Some verdict
      ∧ message = "Изменился статус проверки работы " +:+ dquote
                  +:+ py_str name +:+ dquote +:+ ". " +:+ verdict.
Proof.
  split.
  - unfold parse_status.
    destruct homework as [| | | | s | l | d]; cbn; try discriminate.
    + destruct (contains s "homework_name"); discriminate.
    + destruct (existsb _ l); discriminate.
    + destruct (d !! "homework_name") as [name|] eqn:Hn; cbn; [|discriminate].
      destruct (d !! "status") as [status|] eqn:Hs; cbn; [|discriminate].
      destruct status as [| | | | s | |]; cbn; try discriminate.
      destruct (HOMEWORK_VERDICTS !! s) as [verdict|] eqn:Hv; cbn;
        [|discriminate].
      intros [= <-]. by exists d, name, s, verdict.
  - intros (d & name & s & verdict & -> & Hn & Hs & Hv & ->).
    unfold parse_status; cbn. rewrite Hn, Hs; cbn. by rewrite Hv.
Qed.


(** X18.  Only the first entry of [homeworks] matters: two responses
    that agree on it and on [current_date] make the pass send the same
    and end in the same state, whatever else the list holds. *)
Theorem only_first_homework (w w' : world) (st : loop_state)
    (d d' : gmap string json) (homework : json) (l l' : list json) :
  fetched w = Some (JDict d) → fetched w' = Some (JDict d') →
  d !! "homeworks" = Some (JList (homework :: l)) →
  d' !! "homeworks" = Some (JList (homework :: l')) →
  is_Some (d !! "current_date") →
  d' !! "current_date" = d !! "current_date" →
  (poll w st).2 = result_of (parse_status homework)
  ∧ sent (iteration w' st).1 = sent (iteration w st).1
  ∧ (iteration w' st).2 = (iteration w st).2.
Proof.
  intros Hf Hf' Hh Hh' Hc Hc'.
  assert (is_Some (d' !! "current_date")) as Hc'' by by rewrite Hc'.
  pose proof (poll_fetch_return w st _ Hf) as Hp.
  pose proof (poll_fetch_return w' st _ Hf') as Hp'.
  cbv zeta in Hp, Hp'.
  rewrite (bind_return _ _ _ (check_response_well_shaped d _ Hh Hc)) in Hp.
  rewrite (bind_return _ _ _ (check_response_well_shaped d' _ Hh' Hc''))
    in Hp'.
  cbn [fst snd] in Hp, Hp'.
  change (status_message (homework :: l)) with (parse_status homework) in Hp.
  change (status_message (homework :: l')) with (parse_status homework) in Hp'.
  destruct Hc as [c Hc]. rewrite Hc in Hc'. rewrite Hc in Hp. rewrite Hc' in Hp'.
  cbn [from_option id] in Hp, Hp'.
  split; [by rewrite Hp|].
  rewrite !iteration_sent, !iteration_after_poll, Hp, Hp'. cbn [fst snd].
  split; [by rewrite !after_poll_sent|apply after_poll_state].
Qed.


(** ** Failed fetch *)

(** C6, as amended.  When the fetch ends in a status other than 200, or
    in no response at all, the helper raises [WrongResponseCode]; for a
    status other than 200 its text holds the status code, the reason
    phrase and the body text.  The pass logs the failure as an error,
    leaves the cursor as it was and still ends with the sleep of 600
    seconds.  The loop goes on: right after the sleep the next pass
    begins, and it begins with the request for the same cursor.  That
    request carries the cursor itself as [from_date], as the failed one
    did, when the cursor is truthy; for a falsy cursor, such as the
    initial 0, each of the two requests carries the clock of its own
    pass. *)
Theorem failed_fetch_retries (w : world) (st : loop_state) :
  fetch_failed w →
  (∃ msg,
      result_of (get_api_answer (current_timestamp st) (clock_fetch w)
                   (network w))
      = Raise (Exc WrongResponseCode msg)
      ∧ (∀ r, network w = Answered r →
              msg = "Ответ API не возвращает 200. "
                    +:+ "Код ответа: " +:+ pretty (status_code r) +:+ ". "
                    +:+ "Причина: " +:+ reason r +:+ ". "
                    +:+ "Текст: " +:+ text r +:+ ".")
      ∧ Log ERROR (failure_prefix +:+ msg) ∈ (iteration w st).1)
  ∧ current_timestamp (iteration w st).2 = current_timestamp st
  ∧ last (iteration w st).1 = Some (Sleep RETRY_PERIOD)
  ∧ requests (iteration w st).1
    = [{| url := ENDPOINT; headers := HEADERS;
          params := {[ "from_date" :=
                         if truthy (current_timestamp st)
                         then current_timestamp st
                         else JNum (clock_fetch w) ]} |}]
  ∧ ∀ w' ws,
      requests (iteration w' (iteration w st).2).1
      = [{| url := ENDPOINT; headers := HEADERS;
            params := {[ "from_date" :=
                           if truthy (current_timestamp st)
                           then current_timestamp st
                           else JNum (clock_fetch w') ]} |}]
      ∧ ∃ t t' t'',
          (iteration w st).1 = t ++ [Sleep RETRY_PERIOD]
          ∧ (iteration w' (iteration w st).2).1
            = trace_of (get_api_answer (current_timestamp st) (clock_fetch w')
                          (network w'))
              ++ t'
          ∧ (while_True (w :: w' :: ws) st).1
            = t ++ Sleep RETRY_PERIOD
                :: (iteration w' (iteration w st).2).1 ++ t''.
Proof.
  intros Hw.
  destruct (get_api_answer_failed (current_timestamp st) (clock_fetch w) w Hw)
    as (msg & Hr & Hmsg).
  pose proof (poll_fetch_raise w st _ Hr) as Hp.
  pose proof (iteration_raise w st st _ _ Hp) as Hi.
  assert (current_timestamp (iteration w st).2 = current_timestamp st) as Hc.
  { rewrite Hi. apply except_cursor. }
  split; [|split; [|split; [|split]]].
  - exists msg. split; [done|]. split; [exact Hmsg|].
    rewrite Hi. cbn [fst]. apply elem_of_app. right.
    apply elem_of_app. left.
    apply (except_logs (Exc WrongResponseCode msg)).
  - exact Hc.
  - apply iteration_sleeps.
  - by rewrite iteration_requests.
  - intros w' ws. split.
    + by rewrite iteration_requests, Hc.
    + destruct (proj1 (last_Some _ _) (iteration_sleeps w st)) as [t Ht].
      destruct (iteration_begins w' (iteration w st).2) as [t1 Ht1].
      rewrite Hc in Ht1.
      exists t, t1, (while_True ws (iteration w' (iteration w st).2).2).1.
      split; [exact Ht|]. split; [exact Ht1|].
      rewrite !while_True_cons. cbn [fst].
      rewrite Ht. by rewrite <- !app_assoc.
Qed.

End Bot.

(** * The properties on the sample inputs *)

Abbreviation sample_get_api_answer :=
  (get_api_answer sample_practicum_token sample_repr).
Abbreviation sample_poll := (poll sample_practicum_token sample_repr).
Abbreviation sample_iteration :=
  (iteration sample_practicum_token sample_chat_id sample_repr
     sample_hierarchy).
Abbreviation sample_main :=
  (main sample_practicum_token sample_telegram_token sample_chat_id
     sample_repr sample_hierarchy).

(** C1 as stated fails once the status has been relayed: two further
    passes render the same text again and neither sends it. *)
Lemma dedup_law_steady_state :
  (sample_poll reviewing_poll seen_state).2 = Return reviewing_text
  ∧ (sample_poll reviewing_poll
       (sample_iteration reviewing_poll seen_state).2).2
    = Return reviewing_text
  ∧ sent (sample_iteration reviewing_poll seen_state).1 = []
  ∧ sent (sample_iteration reviewing_poll
            (sample_iteration reviewing_poll seen_state).2).1 = [].
Proof. vm_compute. repeat split. Qed.

(** From the initial state the first of two equal passes sends the
    text and the second does not. *)
Lemma dedup_law_witness :
  (sample_poll reviewing_poll initial_state).2 = Return reviewing_text
  ∧ (sample_poll reviewing_poll
       (sample_iteration reviewing_poll initial_state).2).2
    = Return reviewing_text
  ∧ sent (sample_iteration reviewing_poll initial_state).1 = [reviewing_text]
  ∧ sent (sample_iteration reviewing_poll
            (sample_iteration reviewing_poll initial_state).2).1 = [].
Proof.
  assert ((sample_poll reviewing_poll initial_state).2
          = Return reviewing_text) as H1 by (vm_compute; reflexivity).
  assert ((sample_poll reviewing_poll
             (sample_iteration reviewing_poll initial_state).2).2
          = Return reviewing_text) as H2 by (vm_compute; reflexivity).
  destruct (dedup_law sample_practicum_token sample_chat_id sample_repr
              sample_hierarchy reviewing_poll reviewing_poll initial_state
              reviewing_text H1 H2) as (Hs1 & _ & Hs2 & _).
  split; [exact H1|]. split; [exact H2|]. split; [exact Hs1|exact Hs2].
Defined.

(** C2 as stated fails on the first pass: the list is empty and the
    fixed text goes to the chat. *)
Lemma empty_homeworks_sent :
  fetched idle_poll = Some (api_body (JList []) 990)
  ∧ result_of (check_response (api_body (JList []) 990)) = Return []
  ∧ sent (sample_iteration idle_poll initial_state).1 = ["Нет новых статусов"].
Proof. vm_compute. repeat split. Qed.

Lemma empty_homeworks_message_witness :
  fetched idle_poll = Some (api_body (JList []) 990)
  ∧ result_of (check_response (api_body (JList []) 990)) = Return []
  ∧ (sample_poll idle_poll initial_state).2 = Return "Нет новых статусов"
  ∧ sent (sample_iteration idle_poll initial_state).1 = ["Нет новых статусов"].
Proof.
  assert (fetched idle_poll = Some (api_body (JList []) 990)) as H1
    by reflexivity.
  assert (result_of (check_response (api_body (JList []) 990)) = Return [])
    as H2 by (vm_compute; reflexivity).
  destruct (empty_homeworks_message sample_practicum_token sample_chat_id
              sample_repr sample_hierarchy idle_poll initial_state _ H1 H2)
    as (Hm & Hs & _).
  split; [exact H1|]. split; [exact H2|]. split; [exact Hm|exact Hs].
Defined.

(** C3 as stated fails on a mapping without [homeworks]: the pass ends
    in the validator's error, and the cursor has moved from 1000 to the
    response's date. *)
Lemma malformed_response_moves_cursor :
  fetched (at_time 1700 (ok (JDict homeworkless_body)))
  = Some (JDict homeworkless_body)
  ∧ homeworkless_body !! "homeworks" = None
  ∧ (sample_poll (at_time 1700 (ok (JDict homeworkless_body))) late_state).2
    = Raise (Exc EmptyResponseFromAPI "Нет ключа homeworks в ответе API")
  ∧ current_timestamp late_state = JNum 1000
  ∧ current_timestamp
      (sample_iteration (at_time 1700 (ok (JDict homeworkless_body)))
         late_state).2
    = JNum 2000.
Proof. vm_compute. repeat split. Qed.

Lemma malformed_response_cursor_witness :
  current_timestamp
    (sample_iteration (at_time 1700 (ok (JDict homeworkless_body)))
       late_state).2
  = JNum 2000
  ∧ current_timestamp
      (sample_iteration (at_time 1700 (ok (JDict dateless_body)))
         late_state).2
    = JNum 1700
  ∧ current_timestamp
      (sample_iteration (at_time 1700 (ok (JList []))) late_state).2
    = JNum 1000.
Proof.
  split; [|split].
  - refine (proj1 (proj2 (proj1
      (malformed_response_cursor sample_practicum_token sample_chat_id
         sample_repr sample_hierarchy
         (at_time 1700 (ok (JDict homeworkless_body))) late_state _ eq_refl)
      homeworkless_body eq_refl (or_introl _)))).
    vm_compute; reflexivity.
  - refine (proj1 (proj2 (proj1
      (malformed_response_cursor sample_practicum_token sample_chat_id
         sample_repr sample_hierarchy
         (at_time 1700 (ok (JDict dateless_body))) late_state _ eq_refl)
      dateless_body eq_refl (or_intror _)))).
    vm_compute; reflexivity.
  - destruct (proj2
      (malformed_response_cursor sample_practicum_token sample_chat_id
         sample_repr sample_hierarchy
         (at_time 1700 (ok (JList []))) late_state _ eq_refl))
      as (msg & _ & Hc & _); [discriminate|exact Hc].
Defined.

(** C4 as stated fails when the API reports an earlier date: the cursor
    goes from 1000 back to 500. *)
Lemma cursor_moves_back :
  current_timestamp late_state = JNum 1000
  ∧ reported_date stale_poll = Some (JNum 500)
  ∧ current_timestamp (sample_iteration stale_poll late_state).2 = JNum 500.
Proof. vm_compute. repeat split. Qed.

Lemma cursor_follows_reports_witness :
  dates_ascend 0 [reviewing_poll; outage_poll; fresh_poll]
  ∧ cursors sample_practicum_token sample_chat_id sample_repr
      sample_hierarchy [reviewing_poll; outage_poll; fresh_poll] initial_state
    = [JNum 990; JNum 990; JNum 2190]
  ∧ ascending (JNum 0)
      (cursors sample_practicum_token sample_chat_id sample_repr
         sample_hierarchy [reviewing_poll; outage_poll; fresh_poll]
         initial_state).
Proof.
  assert (dates_ascend 0 [reviewing_poll; outage_poll; fresh_poll]) as H
    by (vm_compute; repeat split; discriminate).
  split; [exact H|]. split; [vm_compute; reflexivity|].
  exact (proj2 (cursor_follows_reports sample_practicum_token sample_chat_id
                  sample_repr sample_hierarchy
                  [reviewing_poll; outage_poll; fresh_poll] 0 "" H)).
Defined.

(** C5 as stated fails at the initial cursor: the request carries the
    clock, 1700, and not 0. *)
Lemma initial_cursor_replaced :
  (λ rq, params rq !! "from_date")
    <$> requests (trace_of (sample_get_api_answer (JNum 0) 1700 unavailable))
  = [Some (JNum 1700)].
Proof. vm_compute. reflexivity. Qed.

Lemma get_api_answer_request_witness :
  ∃ rq,
    requests (trace_of (sample_get_api_answer (JNum 990) 1700 unavailable))
    = [rq]
    ∧ map_to_list (headers rq) = [("Authorization", "OAuth y0_AgAAAAA")]
    ∧ params rq !! "from_date" = Some (JNum 990).
Proof.
  destruct (get_api_answer_request sample_practicum_token sample_repr
              (JNum 990) 1700 unavailable) as (rq & Hr & _ & Hh & _ & Hn & _).
  exists rq. split; [exact Hr|]. split; [exact Hh|].
  apply (Hn 990 eq_refl). discriminate.
Defined.


(** C7 as stated fails on a mapping that has [homeworks], not a list,
    and no [current_date]: the error is the empty-response one. *)
Lemma check_response_dateless :
  dateless_body !! "homeworks" = Some (JNum 5)
  ∧ result_of (check_response (JDict dateless_body))
    = Raise (Exc EmptyResponseFromAPI "Нет ключа homeworks в ответе API").
Proof. vm_compute. repeat split. Qed.

Lemma check_response_cases_witness :
  result_of (check_response (api_body (JList [sample_status]) 990))
  = Return [sample_status]
  ∧ (∃ msg, result_of (check_response (api_body (JNum 5) 990))
            = Raise (Exc TypeError msg))
  ∧ result_of (check_response (JDict homeworkless_body))
    = Raise (Exc EmptyResponseFromAPI "Нет ключа homeworks в ответе API").
Proof.
  split; [|split].
  - refine (proj2 (proj2 (proj2 (check_response_cases _))) _ _ eq_refl _ _).
    + vm_compute; reflexivity.
    + exists (JNum 990). vm_compute; reflexivity.
  - refine (proj1 (proj2 (check_response_cases _)) _ (JNum 5) eq_refl _ _ _).
    + vm_compute; reflexivity.
    + exists (JNum 990). vm_compute; reflexivity.
    + discriminate.
  - refine (proj1 (check_response_cases _) _ eq_refl (or_introl _)).
    vm_compute; reflexivity.
Defined.

(** C8 as stated fails on a status that cannot be hashed, and on an
    unknown status in a mapping without [homework_name]: neither raises
    a value error. *)
Lemma parse_status_not_value_error :
  result_of (parse_status sample_repr (homework (JStr "hw05.zip") (JList [])))
  = Raise (Exc TypeError "unhashable type: 'list'")
  ∧ result_of (parse_status sample_repr (JDict {[ "status" := JStr "lost" ]}))
    = Raise (Exc KeyError "'Нет ключа homework_name в ответе API'").
Proof. vm_compute. repeat split. Qed.

Lemma parse_status_cases_witness :
  result_of (parse_status sample_repr sample_status) = Return reviewing_text
  ∧ result_of (parse_status sample_repr (homework (JStr "hw05.zip") (JStr "lost")))
    = Raise (Exc ValueError "Неизвестный статус работы - lost")
  ∧ result_of (parse_status sample_repr
                 (JDict {[ "homework_name" := JStr "hw05.zip" ]}))
    = Raise (Exc ValueError "Неизвестный статус работы - None").
Proof.
  split; [|split].
  - refine (proj1 (proj2 (proj2 (proj2 (parse_status_cases sample_repr _))
                            (JStr "hw05.zip") _)) _);
      vm_compute; reflexivity.
  - refine (proj1 (proj2 (parse_status_cases sample_repr _))
              (JStr "lost") _ _ eq_refl _ _ _).
    + exists (JStr "hw05.zip"). vm_compute; reflexivity.
    + vm_compute; reflexivity.
    + discriminate.
    + discriminate.
    + discriminate.
  - refine (proj1 (proj2 (parse_status_cases sample_repr _))
              JNull _ _ eq_refl _ _ _).
    + exists (JStr "hw05.zip"). vm_compute; reflexivity.
    + vm_compute; reflexivity.
    + discriminate.
    + discriminate.
    + discriminate.
Defined.

(** C9 as stated fails when the three credentials are there and the
    client refuses the token: the process stops all the same. *)
Lemma critical_stop_bad_token :
  all [env_truthy sample_practicum_token; env_truthy malformed_telegram_token;
       env_truthy sample_chat_id] = true
  ∧ main sample_practicum_token malformed_telegram_token sample_chat_id
      sample_repr sample_hierarchy bad_token_boot [reviewing_poll]
    = ([Log INFO "Проверка наличия всех токенов";
        Log CRITICAL "Произошла критическая ошибка: Invalid token"],
       Stopped).
Proof. vm_compute. repeat split. Qed.

Lemma critical_stop_witness :
  missing None
  ∧ main None sample_telegram_token sample_chat_id sample_repr
      sample_hierarchy good_boot [reviewing_poll]
    = ([Log INFO "Проверка наличия всех токенов";
        Log CRITICAL
          "Произошла критическая ошибка: Отсутствует один из токенов"],
       Stopped).
Proof.
  assert (missing None) as H by (by left).
  split; [exact H|].
  exact (proj1 (critical_stop None sample_telegram_token sample_chat_id
                  sample_repr sample_hierarchy good_boot [reviewing_poll])
           (or_introl H)).
Defined.

(** C10 on the sample credentials. *)
Lemma start_message_once_witness :
  ¬ missing sample_practicum_token
  ∧ ¬ missing sample_telegram_token
  ∧ ¬ missing sample_chat_id
  ∧ sent (sample_main good_boot [reviewing_poll]).1
    = ["Бот начал работу"; reviewing_text]
  ∧ (sample_main good_boot []).2 = Polling initial_state.
Proof.
  assert (¬ missing sample_practicum_token) as H1
    by (intros [H|H]; discriminate H).
  assert (¬ missing sample_telegram_token) as H2
    by (intros [H|H]; discriminate H).
  assert (¬ missing sample_chat_id) as H3
    by (intros [H|H]; discriminate H).
  split; [exact H1|]. split; [exact H2|]. split; [exact H3|].
  split.
  - rewrite (proj1 (start_message_once sample_practicum_token
                      sample_telegram_token sample_chat_id sample_repr
                      sample_hierarchy good_boot [reviewing_poll]
                      H1 H2 H3 eq_refl)).
    vm_compute; reflexivity.
  - rewrite (proj1 (start_message_once sample_practicum_token
                      sample_telegram_token sample_chat_id sample_repr
                      sample_hierarchy good_boot [] H1 H2 H3 eq_refl)).
    reflexivity.
Defined.

(** * The further properties on the sample inputs *)

Abbreviation sample_while_True :=
  (while_True sample_practicum_token sample_chat_id sample_repr
     sample_hierarchy).

(** X3: the status sent by the first pass is not sent by the second. *)
Lemma no_immediate_repeat_witness :
  reviewing_text ∈ sent (sample_iteration reviewing_poll initial_state).1
  ∧ reviewing_text
    ∉ sent (sample_iteration reviewing_poll
              (sample_iteration reviewing_poll initial_state).2).1.
Proof.
  assert (reviewing_text
          ∈ sent (sample_iteration reviewing_poll initial_state).1) as H.
  { replace (sent (sample_iteration reviewing_poll initial_state).1)
      with [reviewing_text] by (vm_compute; reflexivity).
    apply list_elem_of_here. }
  split; [exact H|].
  exact (no_immediate_repeat sample_practicum_token sample_chat_id sample_repr
           sample_hierarchy reviewing_poll reviewing_poll initial_state
           reviewing_text H).
Defined.

(** X8: a 503 answer and then a refused connection. *)
Lemma outage_keeps_cursor_witness :
  Forall fetch_failed [outage_poll; at_time 2200 unreachable]
  ∧ current_timestamp
      (sample_while_True [outage_poll; at_time 2200 unreachable]
         late_state).2
    = JNum 1000.
Proof.
  assert (Forall fetch_failed [outage_poll; at_time 2200 unreachable]) as H.
  { repeat constructor. vm_compute. discriminate. }
  split; [exact H|].
  exact (proj1 (outage_keeps_cursor sample_practicum_token sample_chat_id
                  sample_repr sample_hierarchy
                  [outage_poll; at_time 2200 unreachable] late_state H)).
Defined.

(** X9: after the API reported the date 990, the next request asks from
    990. *)
Lemma next_request_from_reported_date_witness :
  fetched reviewing_poll = Some (JDict reviewing_body)
  ∧ reviewing_body !! "current_date" = Some (JNum 990)
  ∧ requests (sample_iteration fresh_poll
                (sample_iteration reviewing_poll initial_state).2).1
    = [{| url := ENDPOINT; headers := HEADERS sample_practicum_token;
          params := {[ "from_date" := JNum 990 ]} |}].
Proof.
  assert (reviewing_body !! "current_date" = Some (JNum 990)) as H
    by (vm_compute; reflexivity).
  split; [reflexivity|]. split; [exact H|].
  apply (next_request_from_reported_date sample_practicum_token sample_chat_id
           sample_repr sample_hierarchy reviewing_poll fresh_poll
           initial_state reviewing_body 990 eq_refl H).
  discriminate.
Defined.

(** X10: the 503 answer is logged as an error. *)
Lemma exception_handling_witness :
  (sample_poll outage_poll late_state).2 = Raise outage_error
  ∧ Log ERROR (failure_prefix +:+ exc_str outage_error)
    ∈ (sample_iteration outage_poll late_state).1.
Proof.
  assert ((sample_poll outage_poll late_state).2 = Raise outage_error) as H
    by (vm_compute; reflexivity).
  split; [exact H|].
  exact (proj1 (exception_handling sample_practicum_token sample_chat_id
                  sample_repr sample_hierarchy outage_poll late_state
                  outage_error H)).
Defined.

(** X11: the second 503 answer in a row is not reported. *)
Lemma repeated_failure_once_witness :
  (sample_poll outage_poll late_state).2 = Raise outage_error
  ∧ (sample_poll outage_poll (sample_iteration outage_poll late_state).2).2
    = Raise outage_error
  ∧ sent (sample_iteration outage_poll late_state).1
    = [failure_prefix +:+ exc_str outage_error]
  ∧ sent (sample_iteration outage_poll
            (sample_iteration outage_poll late_state).2).1 = [].
Proof.
  assert ((sample_poll outage_poll late_state).2 = Raise outage_error) as H1
    by (vm_compute; reflexivity).
  assert ((sample_poll outage_poll
             (sample_iteration outage_poll late_state).2).2
          = Raise outage_error) as H2 by (vm_compute; reflexivity).
  split; [exact H1|]. split; [exact H2|].
  split; [vm_compute; reflexivity|].
  exact (repeated_failure_once sample_practicum_token sample_chat_id
           sample_repr sample_hierarchy outage_poll outage_poll late_state
           outage_error H1 H2).
Defined.

(** X18: an older homework further down the list changes nothing. *)
Lemma only_first_homework_witness :
  reviewing_body !! "homeworks" = Some (JList [sample_status])
  ∧ two_homeworks_body !! "homeworks"
    = Some (JList [sample_status;
                   homework (JStr "hw04.zip") (JStr "approved")])
  ∧ sent (sample_iteration two_homeworks_poll initial_state).1
    = sent (sample_iteration reviewing_poll initial_state).1
  ∧ (sample_iteration two_homeworks_poll initial_state).2
    = (sample_iteration reviewing_poll initial_state).2.
Proof.
  assert (reviewing_body !! "homeworks" = Some (JList [sample_status])) as H1
    by (vm_compute; reflexivity).
  assert (two_homeworks_body !! "homeworks"
          = Some (JList [sample_status;
                         homework (JStr "hw04.zip") (JStr "approved")])) as H2
    by (vm_compute; reflexivity).
  assert (is_Some (reviewing_body !! "current_date")) as H3
    by (exists (JNum 990); vm_compute; reflexivity).
  assert (two_homeworks_body !! "current_date"
          = reviewing_body !! "current_date") as H4
    by (vm_compute; reflexivity).
  split; [exact H1|]. split; [exact H2|].
  exact (proj2 (only_first_homework sample_practicum_token sample_chat_id
                  sample_repr sample_hierarchy reviewing_poll
                  two_homeworks_poll initial_state reviewing_body
                  two_homeworks_body sample_status [] _ eq_refl eq_refl
                  H1 H2 H3 H4)).
Defined.

(** C6 as stated fails at the initial cursor: the cursor stays 0 over the
    outage, and the retry does not ask from the same date, as the two
    requests carry the clock of their passes, 1000 and 1600. *)
Lemma retry_at_initial_cursor :
  fetch_failed (at_time 1000 unavailable)
  ∧ fetch_failed outage_poll
  ∧ current_timestamp
      (sample_iteration (at_time 1000 unavailable) initial_state).2
    = JNum 0
  ∧ (λ rq, params rq !! "from_date")
      <$> requests (sample_while_True [at_time 1000 unavailable; outage_poll]
                      initial_state).1
    = [Some (JNum 1000); Some (JNum 1600)].
Proof.
  split; [vm_compute; discriminate|]. split; [vm_compute; discriminate|].
  vm_compute. repeat split.
Qed.

(** C6 on a 503 answer at cursor 1000: the cursor stays, the pass ends
    in the sleep, and both the failed request and the retry ask from
    1000. *)
Lemma failed_fetch_retries_witness :
  fetch_failed outage_poll
  ∧ current_timestamp (sample_iteration outage_poll late_state).2 = JNum 1000
  ∧ last (sample_iteration outage_poll late_state).1 = Some (Sleep 600)
  ∧ requests (sample_iteration outage_poll late_state).1
    = [{| url := ENDPOINT; headers := HEADERS sample_practicum_token;
          params := {[ "from_date" := JNum 1000 ]} |}]
  ∧ requests (sample_iteration (at_time 2200 unreachable)
                (sample_iteration outage_poll late_state).2).1
    = [{| url := ENDPOINT; headers := HEADERS sample_practicum_token;
          params := {[ "from_date" := JNum 1000 ]} |}].
Proof.
  assert (fetch_failed outage_poll) as H by (vm_compute; discriminate).
  destruct (failed_fetch_retries sample_practicum_token sample_chat_id
              sample_repr sample_hierarchy outage_poll late_state H)
    as (_ & Hc & Hs & Hq & Hn).
  split; [exact H|]. split; [exact Hc|]. split; [exact Hs|].
  split; [exact Hq|].
  exact (proj1 (Hn (at_time 2200 unreachable) [])).
Defined.
